(** * Promo flyer analysis: extraction pipeline and selection layer

    A shallow embedding of [lt_promo_analyzer_enhanced.py]
    ([PromoFlyerScraper] and [LTPromoCartAnalyzer]) and the properties of its
    text-to-record pipeline, deal ranking, cart optimisation and shopping
    list assembly.

    Modelling conventions.
    - A Python [str] is a list of Unicode code points ([PyStr.str]).
    - A Python [float] holding a price is an exact rational ([Q]); [round]
      is round-half-to-even on the exact value.  Rounding error, infinities
      and NaN of binary floating point are outside the model.
    - A Python [int] is a [Z].
    - A raised exception is the [Raise] case of [result].
    - A pandas DataFrame of product rows is a list of [ProductRecord]. *)

From Stdlib Require Import String Ascii.
From Stdlib Require Import List ZArith NArith QArith Qround Bool Lia Lqa.
From Stdlib Require Import Sorting.Sorted Sorting.Permutation.
Import ListNotations.

Set Implicit Arguments.
Local Open Scope Z_scope.

(** ** Python strings *)

Module PyStr.

Definition char := N.
Definition str := list char.

Definition bytes_of (s : string) : list N :=
  List.map (fun b => N.of_nat (nat_of_ascii b)) (list_ascii_of_string s).

Definition cont (b : N) : N := N.land b 63.

(** UTF-8 decoding of a source literal into code points. *)
Fixpoint decode (bs : list N) : str :=
  match bs with
  | [] => []
  | b :: r =>
    if (b <? 128)%N then b :: decode r
    else if (b <? 224)%N then
      match r with
      | b1 :: r1 => (N.land b 31 * 64 + cont b1)%N :: decode r1
      | _ => []
      end
    else if (b <? 240)%N then
      match r with
      | b1 :: b2 :: r2 =>
        (N.land b 15 * 4096 + cont b1 * 64 + cont b2)%N :: decode r2
      | _ => []
      end
    else
      match r with
      | b1 :: b2 :: b3 :: r3 =>
        (N.land b 7 * 262144 + cont b1 * 4096 + cont b2 * 64 + cont b3)%N
          :: decode r3
      | _ => []
      end
  end.

Definition lit (s : string) : str := decode (bytes_of s).

Fixpoint eqb (a b : str) : bool :=
  match a, b with
  | [], [] => true
  | x :: a', y :: b' => (x =? y)%N && eqb a' b'
  | _, _ => false
  end.

(** [str.isspace] on one character (CPython's [_PyUnicode_IsWhitespace]). *)
Definition isspace (c : char) : bool :=
  ((9 <=? c) && (c <=? 13) || (28 <=? c) && (c <=? 32)
   || (c =? 133) || (c =? 160) || (c =? 5760)
   || (8192 <=? c) && (c <=? 8202)
   || (c =? 8232) || (c =? 8233) || (c =? 8239) || (c =? 8287)
   || (c =? 12288))%N.

(** Simple lower-case mapping of one code point: ASCII, Latin-1 and
    Latin Extended-A (which holds the Lithuanian letters), plus the two
    letter-like signs that fold onto ASCII letters.  Code points outside
    these blocks are left unchanged. *)
Definition lower1 (c : char) : char :=
  (if (65 <=? c) && (c <=? 90) then c + 32
   else if (192 <=? c) && (c <=? 222) && negb (c =? 215) then c + 32
   else if (c =? 304) then 105
   else if (c =? 376) then 255
   else if ((256 <=? c) && (c <=? 303) || (306 <=? c) && (c <=? 311)
            || (330 <=? c) && (c <=? 375)) && N.even c then c + 1
   else if ((313 <=? c) && (c <=? 328) || (377 <=? c) && (c <=? 382))
           && N.odd c then c + 1
   else if (c =? 8490) then 107
   else if (c =? 8491) then 229
   else c)%N.

(** [str.lower]: character-wise, except that U+0130 lowers to the two
    code points U+0069 U+0307. *)
Definition lower (s : str) : str :=
  flat_map (fun c => if (c =? 304)%N then [105; 775]%N else [lower1 c]) s.

Fixpoint lstrip (s : str) : str :=
  match s with
  | c :: s' => if isspace c then lstrip s' else s
  | [] => []
  end.

Definition rstrip (s : str) : str := rev (lstrip (rev s)).

(** [str.strip()] *)
Definition strip (s : str) : str := rstrip (lstrip s).

(** [str.split()] with no argument: maximal runs of non-whitespace. *)
Fixpoint split_aux (s : str) (cur : str) : list str :=
  match s with
  | [] => match cur with [] => [] | _ => [rev cur] end
  | c :: s' =>
    if isspace c
    then match cur with [] => split_aux s' [] | _ => rev cur :: split_aux s' [] end
    else split_aux s' (c :: cur)
  end.

Definition split (s : str) : list str := split_aux s [].

Fixpoint startswith (p s : str) : bool :=
  match p, s with
  | [], _ => true
  | x :: p', y :: s' => (x =? y)%N && startswith p' s'
  | _ :: _, [] => false
  end.

(** [needle in s] *)
Fixpoint contains (needle s : str) : bool :=
  startswith needle s ||
  match s with
  | [] => false
  | _ :: s' => contains needle s'
  end.

(** [s[i:j]] for [0 <= i], [0 <= j] *)
Definition slice (s : str) (i j : nat) : str := firstn (j - i) (skipn i s).

(** [sep.join(ws)] *)
Fixpoint join (sep : str) (ws : list str) : str :=
  match ws with
  | [] => []
  | [w] => w
  | w :: ws' => w ++ sep ++ join sep ws'
  end.

End PyStr.

Abbreviation str := PyStr.str.
Abbreviation char := PyStr.char.

(** ** The fragment of [re] used by the pattern lists

    Every configured pattern is a sequence of quantified single-character
    classes, some of them capturing; the matcher is the usual backtracking
    one (greedy and lazy repetition), compiled with [re.IGNORECASE]. *)

Module Re.

Inductive cls :=
| Lit (c : char)            (* a literal character, case-insensitive *)
| Digit                     (* \d *)
| Space                     (* \s *)
| AnyChar                   (* .  (no DOTALL: anything but a newline) *)
| OneOf (cs : list char).   (* [...] *)

Inductive quant :=
| One                       (* x *)
| Exactly (n : nat)         (* x{n} *)
| Plus                      (* x+ *)
| Star                      (* x* *)
| StarLazy.                 (* x*? *)

Record item := Item { i_cls : cls; i_quant : quant; i_capture : bool }.

Definition pattern := list item.

(** [\d]: the decimal digits (ASCII block of the Unicode category Nd). *)
Definition isdigit (c : char) : bool := ((48 <=? c) && (c <=? 57))%N.

(** Case-insensitive literal comparison: equal lower-case mappings, or
    related by the extra equivalences i/dotless-i, s/long-s, micro/mu. *)
Definition fold_class (c : char) : char :=
  (if c =? 305 then 105 else if c =? 383 then 115
   else if c =? 956 then 181 else c)%N.

Definition ci_eqb (p c : char) : bool :=
  (fold_class (PyStr.lower1 p) =? fold_class (PyStr.lower1 c))%N.

Definition cls_matches (k : cls) (c : char) : bool :=
  match k with
  | Lit p => ci_eqb p c
  | Digit => isdigit c
  | Space => PyStr.isspace c
  | AnyChar => negb (c =? 10)%N
  | OneOf cs => existsb (fun p => ci_eqb p c) cs
  end.

(** A successful match: end offset and the captured groups. *)
Definition outcome := (nat * list str)%type.
Definition kont := str -> nat -> str -> option outcome.

Fixpoint exactly (f : char -> bool) (n : nat) (k : kont)
         (s : str) (pos : nat) (acc : str) : option outcome :=
  match n with
  | O => k s pos (rev acc)
  | S n' =>
    match s with
    | c :: s' => if f c then exactly f n' k s' (S pos) (c :: acc) else None
    | [] => None
    end
  end.

(** Greedy repetition: take as many as possible, give back on failure. *)
Fixpoint greedy (f : char -> bool) (k : kont)
         (s : str) (pos : nat) (acc : str) : option outcome :=
  match s with
  | c :: s' =>
    if f c then
      match greedy f k s' (S pos) (c :: acc) with
      | Some r => Some r
      | None => k s pos (rev acc)
      end
    else k s pos (rev acc)
  | [] => k s pos (rev acc)
  end.

(** Lazy repetition: take as few as possible, extend on failure. *)
Fixpoint lazy (f : char -> bool) (k : kont)
         (s : str) (pos : nat) (acc : str) : option outcome :=
  match k s pos (rev acc) with
  | Some r => Some r
  | None =>
    match s with
    | c :: s' => if f c then lazy f k s' (S pos) (c :: acc) else None
    | [] => None
    end
  end.

(** Match [p] against the text suffix [s] that starts at offset [pos];
    [caps] holds the groups captured so far, last first. *)
Fixpoint match_here (p : pattern) (s : str) (pos : nat) (caps : list str)
  : option outcome :=
  match p with
  | [] => Some (pos, rev caps)
  | it :: p' =>
    let f := cls_matches (i_cls it) in
    let k : kont := fun s' pos' got =>
      match_here p' s' pos' (if i_capture it then got :: caps else caps) in
    match i_quant it with
    | One => exactly f 1 k s pos []
    | Exactly n => exactly f n k s pos []
    | Plus =>
      match s with
      | c :: s' => if f c then greedy f k s' (S pos) [c] else None
      | [] => None
      end
    | Star => greedy f k s pos []
    | StarLazy => lazy f k s pos []
    end
  end.

(** The match object: [start()], [end()] and [groups()]. *)
Record match_obj := Match { m_start : nat; m_end : nat; m_groups : list str }.

(** [re.finditer]: leftmost matches, scanning resumes where the previous
    match ended ([skip] counts the characters still covered by it).  An
    empty match advances by one character; the configured patterns all
    consume at least one character. *)
Fixpoint finditer_from (p : pattern) (s : str) (pos skip : nat)
  : list match_obj :=
  match s with
  | [] => []
  | _ :: s' =>
    match skip with
    | S skip' => finditer_from p s' (S pos) skip'
    | O =>
      match match_here p s pos [] with
      | Some (e, gs) => Match pos e gs :: finditer_from p s' (S pos) (e - pos - 1)
      | None => finditer_from p s' (S pos) 0
      end
    end
  end.

Definition finditer (p : pattern) (text : str) : list match_obj :=
  finditer_from p text 0 0.

(** [match.group(0)] *)
Definition group0 (text : str) (m : match_obj) : str :=
  PyStr.slice text (m_start m) (m_end m).

(** [match.group(i)] for [i >= 1]; [None] is [IndexError]. *)
Definition group (m : match_obj) (i : nat) : option str :=
  nth_error (m_groups m) (i - 1).

(** Pattern-literal helpers. *)
Definition chars (s : string) : pattern :=
  List.map (fun c => Item (Lit c) One false) (PyStr.lit s).
Definition digits1 : item := Item Digit Plus true.       (* (\d+)   *)
Definition digits2 : item := Item Digit (Exactly 2) true. (* (\d{2}) *)
Definition spaces : item := Item Space Star false.        (* \s*    *)
Definition comma_or_dot : item := Item (OneOf (PyStr.lit ",.")) One false.

End Re.

(** ** Exceptions *)

Inductive exn :=
| ZeroDivisionError
| ValueError (msg : str).

Inductive result (A : Type) :=
| Ok (a : A)
| Raise (e : exn).
Arguments Ok {A} a.
Arguments Raise {A} e.

Definition bind {A B} (r : result A) (f : A -> result B) : result B :=
  match r with
  | Ok a => f a
  | Raise e => Raise e
  end.

Notation "x <- r ;; k" := (bind r (fun x => k))
  (at level 61, r at next level, right associativity).

(** ** Numbers *)

Module Num.

Definition digit_val (c : char) : Z := Z.of_N (c - 48).

(** Value of a digit string read left to right. *)
Definition digits_val (s : str) : Z :=
  fold_left (fun acc c => 10 * acc + digit_val c) s 0.

Definition all_digits (s : str) : bool :=
  match s with
  | [] => false
  | _ => forallb Re.isdigit s
  end.

(** [int(s)] on what a digit group can hold; [None] is [ValueError]. *)
Definition py_int (s : str) : option Z :=
  if all_digits s then Some (digits_val s) else None.

Fixpoint split_dot (s : str) (acc : str) : str * option str :=
  match s with
  | [] => (rev acc, None)
  | c :: s' => if (c =? 46)%N then (rev acc, Some s') else split_dot s' (c :: acc)
  end.

(** [float(s)] on the forms built by the extractor, [ddd] and [ddd.dd];
    [None] is [ValueError]. *)
Definition py_float (s : str) : option Q :=
  match split_dot s [] with
  | (ip, None) => if all_digits ip then Some (inject_Z (digits_val ip)) else None
  | (ip, Some fp) =>
    if all_digits ip && all_digits fp
    then Some (inject_Z (digits_val ip)
               + inject_Z (digits_val fp) / inject_Z (10 ^ Z.of_nat (length fp)))%Q
    else None
  end.

(** Nearest integer, ties to even. *)
Definition round_half_even (x : Q) : Z :=
  let n := Qnum x in
  let d := Zpos (Qden x) in
  let q := n / d in
  let r := n mod d in
  if 2 * r <? d then q
  else if d <? 2 * r then q + 1
  else if Z.even q then q else q + 1.

(** [round(x, 2)] *)
Definition round2 (x : Q) : Q := (inject_Z (round_half_even (x * 100)) / 100)%Q.

(** [x / y] on floats: a zero divisor raises. *)
Definition py_div (x y : Q) : result Q :=
  if Qeq_bool y 0 then Raise ZeroDivisionError else Ok (x / y)%Q.

End Num.

(** ** Product rows *)

Record ProductRecord := {
  retailer : str;
  product_name : str;
  category : str;
  base_price : Q;
  final_price : Q;
  discount_pct : Z;
  is_promo : bool;
  source_file : str;
  parsed_date : Z
}.

(** A DataFrame whose rows are product records, in row order. *)
Definition frame := list ProductRecord.

(** ** PromoFlyerScraper *)

Module Scraper.

Import Re.

(** [self.price_patterns] *)
Definition price_patterns : list pattern :=
  [ [digits1; comma_or_dot; digits2; spaces] ++ chars "€";
    [digits1; comma_or_dot; digits2; spaces] ++ chars "EUR";
    chars "€" ++ [spaces; digits1; comma_or_dot; digits2];
    [digits1; spaces] ++ chars "ct" ].

(** [self.discount_patterns] *)
Definition discount_patterns : list pattern :=
  [ chars "-" ++ [digits1] ++ chars "%";
    [digits1] ++ chars "%" ++ [spaces] ++ chars "nuolaida";
    chars "taupyk" ++ [Item AnyChar StarLazy false; digits1] ++ chars "%";
    chars "iki" ++ [spaces] ++ chars "-" ++ [digits1] ++ chars "%" ].

(** [self.category_keywords], in insertion order. *)
Definition category_keywords : list (str * list str) :=
  List.map (fun '(c, ks) => (PyStr.lit c, List.map PyStr.lit ks))
  [ ("Pieno produktai", ["pienas"; "jogurt"; "grietinė"; "varškė"; "sūris"; "sviestas"]);
    ("Mėsa ir mėsos gaminiai", ["mėsa"; "dešra"; "kumpi"; "filė"; "šonin"; "dešrel"]);
    ("Duona ir konditerija", ["duona"; "batonas"; "bandel"; "pyraga"; "kepalin"]);
    ("Vaisiai ir daržovės", ["obuol"; "banan"; "pomidor"; "agurkr"; "moliūg"; "kopūst"]);
    ("Gėrimai", ["sultys"; "vanduo"; "gėrim"; "limonadas"; "arbata"; "kava"]);
    ("Konservai", ["konserv"; "marinet"; "grybai"; "žuvies"]);
    ("Užšaldyti produktai", ["užšaldyt"; "ledai"; "pizza"]);
    ("Sausainiai ir saldumynai", ["sausain"; "šokolad"; "saldain"; "vafliai"]);
    ("Makaronai ir kruopos", ["makaron"; "kruopos"; "ryžiai"; "grikiai"]);
    ("Kosmetika ir higiena", ["šampūnas"; "muilas"; "pasta"; "dušo želė"]) ]%string.

(** The window of a match,
    [text[max(0, start - 50) : min(len(text), end + 50)]], and its
    context, the window after [.strip()]. *)
Definition window (text : str) (m : match_obj) : str :=
  let start := Z.max 0 (Z.of_nat (m_start m) - 50) in
  let end_ := Z.min (Z.of_nat (List.length text)) (Z.of_nat (m_end m) + 50) in
  PyStr.slice text (Z.to_nat start) (Z.to_nat end_).

Definition context_of (text : str) (m : match_obj) : str :=
  PyStr.strip (window text m).

(** The [try] body of [extract_prices_from_text] up to the price;
    [None] is any exception, which the bare [except] turns into
    [continue]. *)
Definition price_of_match (text : str) (m : match_obj) : option Q :=
  if PyStr.contains (PyStr.lit "ct") (PyStr.lower (group0 text m)) then
    match group m 1 with
    | Some g1 => option_map (fun x => x / 100)%Q (Num.py_float g1)
    | None => None
    end
  else
    match group m 1 with
    | Some euros =>
      let cents :=
        if (1 <? List.length (m_groups m))%nat then group m 2
        else Some (PyStr.lit "00") in
      match cents with
      | Some cents => Num.py_float (euros ++ PyStr.lit "." ++ cents)
      | None => None
      end
    | None => None
    end.

Definition price_pairs_of (text : str) (p : pattern) : list (str * Q) :=
  flat_map (fun m =>
    match price_of_match text m with
    | Some price => [(context_of text m, price)]
    | None => []
    end) (finditer p text).

Definition extract_prices_from (patterns : list pattern) (text : str)
  : list (str * Q) :=
  flat_map (price_pairs_of text) patterns.

Definition extract_prices_from_text : str -> list (str * Q) :=
  extract_prices_from price_patterns.

Definition discount_of_match (m : match_obj) : option Z :=
  match group m 1 with
  | Some g1 => Num.py_int g1
  | None => None
  end.

Definition discount_pairs_of (text : str) (p : pattern) : list (str * Z) :=
  flat_map (fun m =>
    match discount_of_match m with
    | Some discount => [(context_of text m, discount)]
    | None => []
    end) (finditer p text).

Definition extract_discounts_from (patterns : list pattern) (text : str)
  : list (str * Z) :=
  flat_map (discount_pairs_of text) patterns.

Definition extract_discounts_from_text : str -> list (str * Z) :=
  extract_discounts_from discount_patterns.

(** [categorize_product]: the dictionary is walked in insertion order,
    the keywords of a category in list order; [None] when nothing hits. *)
Definition categorize_with (kw : list (str * list str)) (text : str)
  : option str :=
  let text_lower := PyStr.lower text in
  option_map fst
    (find (fun '(_, keywords) =>
             existsb (fun keyword => PyStr.contains keyword text_lower) keywords)
          kw).

Definition categorize_product : str -> option str :=
  categorize_with category_keywords.

(** The discount search of [parse_flyer]: the first discount whose
    context shares one of its first five words with the price context. *)
Fixpoint associate_discount (context : str) (discounts : list (str * Z)) : Z :=
  match discounts with
  | [] => 0
  | (disc_context, disc) :: rest =>
    if existsb (fun word => PyStr.contains word (PyStr.lower context))
               (firstn 5 (PyStr.split (PyStr.lower disc_context)))
    then disc
    else associate_discount context rest
  end.

(** [category if category else 'Kita'] *)
Definition category_or_kita (c : option str) : str :=
  match c with
  | Some (x :: r) => x :: r
  | _ => PyStr.lit "Kita"
  end.

Definition product_name_of (context : str) : str :=
  match PyStr.split context with
  | [] => PyStr.lit "Unknown Product"
  | words => PyStr.join (PyStr.lit " ") (firstn 5 words)
  end.

(** The price computation of [parse_flyer]: [(base_price, final_price)]. *)
Definition derive_prices (price : Q) (discount_pct : Z) : result (Q * Q) :=
  if 0 <? discount_pct then
    q <- Num.py_div price (1 - inject_Z discount_pct / 100)%Q ;;
    Ok (Num.round2 q, price)
  else Ok (price, price).

(** One iteration of the product loop of [parse_flyer]. *)
Definition build_product (kw : list (str * list str))
           (retailer_ source : str) (now : Z)
           (discounts : list (str * Z)) (cp : str * Q) : result ProductRecord :=
  let '(context, price) := cp in
  let discount_pct := associate_discount context discounts in
  let category := categorize_with kw context in
  bf <- derive_prices price discount_pct ;;
  Ok {| retailer := retailer_;
        product_name := product_name_of context;
        category := category_or_kita category;
        base_price := fst bf;
        final_price := snd bf;
        discount_pct := discount_pct;
        is_promo := 0 <? discount_pct;
        source_file := source;
        parsed_date := now |}.

(** [df.drop_duplicates(subset=['product_name', 'final_price'])]:
    the first row of every key is kept. *)
Definition same_key (a b : ProductRecord) : bool :=
  PyStr.eqb (product_name a) (product_name b)
  && Qeq_bool (final_price a) (final_price b).

Fixpoint drop_duplicates_aux (seen : list ProductRecord) (l : frame) : frame :=
  match l with
  | [] => []
  | r :: l' =>
    if existsb (same_key r) seen then drop_duplicates_aux seen l'
    else r :: drop_duplicates_aux (r :: seen) l'
  end.

Definition drop_duplicates (l : frame) : frame := drop_duplicates_aux [] l.

(** The product loop; [clock i] is what [datetime.now()] returns in
    iteration [i]. *)
Fixpoint build_products (kw : list (str * list str)) (retailer_ source : str)
         (clock : nat -> Z) (discounts : list (str * Z))
         (prices : list (str * Q)) (i : nat) : result frame :=
  match prices with
  | [] => Ok []
  | cp :: rest =>
    r <- build_product kw retailer_ source (clock i) discounts cp ;;
    rs <- build_products kw retailer_ source clock discounts rest (S i) ;;
    Ok (r :: rs)
  end.

(** [parse_flyer], from the extracted text on. *)
Definition parse_flyer (text retailer_ source : str) (clock : nat -> Z)
  : result frame :=
  match PyStr.strip text with
  | [] => Ok []
  | _ =>
    let prices := extract_prices_from_text text in
    let discounts := extract_discounts_from_text text in
    products <- build_products category_keywords retailer_ source clock
                  discounts prices 0 ;;
    Ok (drop_duplicates products)
  end.

(** [self.retailer_configs], in insertion order. *)
Record RetailerConfig := {
  base_url : str;
  flyer_page : str;
  pdf_pattern : str;
  name_patterns : list str
}.

Definition retailer_configs : list (str * RetailerConfig) :=
  List.map (fun '(name, (base, patterns)) =>
              (PyStr.lit name,
               {| base_url := PyStr.lit base;
                  flyer_page := PyStr.lit base ++ PyStr.lit "/akcijos";
                  pdf_pattern := PyStr.lit "\.pdf";
                  name_patterns := List.map PyStr.lit patterns |}))
  [ ("Maxima", ("https://www.maxima.lt", ["akcij"; "nuolaid"; "special"]));
    ("Rimi", ("https://www.rimi.lt", ["akcij"; "savaites"; "week"]));
    ("IKI", ("https://www.iki.lt", ["akcij"; "savaitės"]));
    ("Lidl", ("https://www.lidl.lt", ["akcij"; "pasiulym"]));
    ("Norfa", ("https://www.norfa.lt", ["akcij"; "nuolaid"])) ]%string.

(** [self.retailer_configs[retailer]]; [None] when the key is absent. *)
Definition config_of (retailer_ : str) : option RetailerConfig :=
  option_map snd (find (fun entry => PyStr.eqb (fst entry) retailer_)
                       retailer_configs).

(** The link handling of [find_flyer_urls]: a link is kept when it starts
    with "http", and is otherwise appended to the base URL, with a slash
    in between unless it brings its own. *)
Definition absolute_url (config : RetailerConfig) (link : str) : str :=
  if PyStr.startswith (PyStr.lit "http") link then link
  else if PyStr.startswith (PyStr.lit "/") link then base_url config ++ link
  else base_url config ++ PyStr.lit "/" ++ link.

(** [find_flyer_urls].  The page download and the [href] search are the
    work of [requests] and [re]: [fetched] is [None] when they raised (the
    [except] branch, which leaves the list empty) and otherwise holds the
    links [href_pattern.findall] returned. *)
Definition find_flyer_urls (retailer_ : str) (fetched : option (list str))
  : list str :=
  match config_of retailer_ with
  | None => []
  | Some config =>
    match fetched with
    | Some links => List.map (absolute_url config) links
    | None => []
    end
  end.

End Scraper.

(** ** The pandas operations the analyzer uses *)

Module Frame.

Section Sorting.
Variable A : Type.
Variable le : A -> A -> bool.

(** Stable insertion: [x] goes in front of the first element it does
    not exceed, so rows with equal keys keep their order. *)
Fixpoint insert (x : A) (l : list A) : list A :=
  match l with
  | [] => [x]
  | y :: l' => if le x y then x :: y :: l' else y :: insert x l'
  end.

Fixpoint sort (l : list A) : list A :=
  match l with
  | [] => []
  | x :: l' => insert x (sort l')
  end.
End Sorting.

(** [df.sort_values(col)] and [df.sort_values(col, ascending=False)].
    Rows with equal keys are kept in row order here; pandas leaves their
    order to the sorting algorithm, and nothing below depends on it. *)
Definition sort_ascending {A} (key : A -> Q) : list A -> list A :=
  sort (fun a b => Qle_bool (key a) (key b)).

Definition sort_descending {A} (key : A -> Q) : list A -> list A :=
  sort (fun a b => Qle_bool (key b) (key a)).


Definition nsmallest {A} (n : Z) (key : A -> Q) (l : list A) : list A :=
  firstn (Z.to_nat n) (sort_ascending key l).

(** Order of Python strings: lexicographic on code points. *)
Fixpoint str_leb (a b : str) : bool :=
  match a, b with
  | [], _ => true
  | _ :: _, [] => false
  | x :: a', y :: b' =>
    if (x <? y)%N then true
    else if (y <? x)%N then false
    else str_leb a' b'
  end.

(** Distinct values in order of first appearance. *)
Fixpoint unique (l : list str) : list str :=
  match l with
  | [] => []
  | x :: l' => x :: filter (fun y => negb (PyStr.eqb x y)) (unique l')
  end.

(** The group keys of [df.groupby(col)]: distinct values, sorted. *)
Definition group_keys (l : list str) : list str :=
  sort str_leb (unique l).

Definition count (x : str) (l : list str) : nat :=
  List.length (filter (PyStr.eqb x) l).

(** [series.value_counts()]: distinct values with their counts, most
    frequent first. *)
Definition value_counts (l : list str) : list (str * nat) :=
  sort (fun a b => (snd b <=? snd a)%nat)
       (List.map (fun x => (x, count x l)) (unique l)).

(** [series.idxmax()] of a [value_counts()]: the label of the first
    largest count; raises on an empty series. *)
Definition idxmax (vc : list (str * nat)) : result str :=
  match vc with
  | [] => Raise (ValueError (PyStr.lit "attempt to get argmax of an empty sequence"))
  | (x, n) :: rest =>
    Ok (fst (fold_left (fun best y => if (snd best <? snd y)%nat then y else best)
                       rest (x, n)))
  end.

End Frame.

(** ** LTPromoCartAnalyzer *)

Module Analyzer.

(** [self.promo_products]: [None] until something is loaded. *)
Definition store := option frame.

Definition no_data : exn := ValueError (PyStr.lit "No promo data loaded.").

(** The guard that opens every query:
    [if self.promo_products is None or self.promo_products.empty: raise]. *)
Definition loaded (pp : store) : result frame :=
  match pp with
  | None | Some [] => Raise no_data
  | Some df => Ok df
  end.

(** *** find_best_deals *)

Definition savings (r : ProductRecord) : Q := (base_price r - final_price r)%Q.

Definition deal_score (r : ProductRecord) : Q :=
  (inject_Z (discount_pct r) * 0.7 + (savings r / base_price r * 100) * 0.3)%Q.


(** The columns of the returned frame. *)
Record Deal := {
  d_retailer : str;
  d_product_name : str;
  d_category : str;
  d_base_price : Q;
  d_final_price : Q;
  d_discount_pct : Z;
  d_savings : Q
}.



(** *** optimize_shopping_cart *)

Record CartItem := {
  c_retailer : str;
  c_product : str;
  c_category : str;
  c_price : Q;
  c_original_price : Q;
  c_discount : Z;
  c_is_promo : bool
}.

(** The returned dictionary.  [retailers] is [list(set(...))], whose order
    Python does not fix; the distinct names are listed in order of first
    appearance. *)
Record Cart := {
  cart : list CartItem;
  total_cost : Q;
  total_savings : Q;
  items_count : nat;
  retailers : list str
}.

(** Loop state: [cart], [total_cost], [total_savings]. *)
Definition cart_state := (list CartItem * Q * Q)%type.

(** Truth value of [budget] in [if budget and ...]. *)
Definition truthy (budget : option Q) : bool :=
  match budget with
  | Some b => negb (Qeq_bool b 0)
  | None => false
  end.

(** [budget and (total_cost + item_cost) > budget] *)
Definition over_budget (budget : option Q) (total item_cost : Q) : bool :=
  truthy budget &&
  match budget with
  | Some b => negb (Qle_bool (total + item_cost) b)
  | None => false
  end.

Definition sort_key (r : ProductRecord) : Q :=
  (final_price r - (if is_promo r then 1 else 0) * 0.01)%Q.

(** One pass of the inner loop body. *)
Definition add_product (budget : option Q) (category_ : str)
           (st : cart_state) (product : ProductRecord) : cart_state :=
  let '(cart_, total, saved) := st in
  let item_cost := final_price product in
  if over_budget budget total item_cost then st
  else
    (cart_ ++ [{| c_retailer := retailer product;
                  c_product := product_name product;
                  c_category := category_;
                  c_price := item_cost;
                  c_original_price := base_price product;
                  c_discount := discount_pct product;
                  c_is_promo := is_promo product |}],
     total + item_cost,
     saved + (base_price product - item_cost))%Q.

(** The rows picked for one [(category, qty)] entry; nothing when the
    category has no rows ([continue]). *)
Definition best_products (df : frame) (category_ : str) (qty : Z) : frame :=
  match filter (fun r => PyStr.eqb (category r) category_) df with
  | [] => []
  | category_products => Frame.nsmallest qty sort_key category_products
  end.

(** The outer loop over [desired_products.items()], a dictionary in
    insertion order. *)
Definition fill_cart (df : frame) (budget : option Q)
           (desired_products : list (str * Z)) (st : cart_state) : cart_state :=
  fold_left (fun st '(category_, qty) =>
               fold_left (add_product budget category_)
                         (best_products df category_ qty) st)
            desired_products st.

Definition optimize_shopping_cart (pp : store)
           (desired_products : list (str * Z)) (budget : option Q)
  : result Cart :=
  df <- loaded pp ;;
  let '(cart_, total, saved) :=
    fill_cart df budget desired_products ([], 0, 0)%Q in
  Ok {| cart := cart_;
        total_cost := Num.round2 total;
        total_savings := Num.round2 saved;
        items_count := List.length cart_;
        retailers := Frame.unique (List.map c_retailer cart_) |}.

(** *** generate_shopping_list *)

Definition is_savings (s : str) : bool := PyStr.eqb s (PyStr.lit "savings").
Definition is_variety (s : str) : bool := PyStr.eqb s (PyStr.lit "variety").
Definition is_single_retailer (s : str) : bool :=
  PyStr.eqb s (PyStr.lit "single_retailer").

(** The [if/elif/elif] over [optimize_for]; no [else]. *)
Definition arrange (optimize_for : str) (promo_items : frame) : result frame :=
  if is_savings optimize_for then
    Ok (Frame.sort_descending (fun r => inject_Z (discount_pct r)) promo_items)
  else if is_variety optimize_for then
    Ok (flat_map (fun c =>
                    Frame.nsmallest 2 final_price
                      (filter (fun r => PyStr.eqb (category r) c) promo_items))
                 (Frame.group_keys (List.map category promo_items)))
  else if is_single_retailer optimize_for then
    best_retailer <-
      Frame.idxmax (Frame.value_counts (List.map retailer promo_items)) ;;
    Ok (filter (fun r => PyStr.eqb (retailer r) best_retailer) promo_items)
  else Ok promo_items.

(** Loop state: [shopping_list], [current_total]. *)
Definition list_state := (frame * Q)%type.

(** The budget loop, with its [break]. *)
Fixpoint budget_walk (budget : Q) (items : frame) (st : list_state)
  : list_state :=
  match items with
  | [] => st
  | item :: rest =>
    let '(shopping_list, current_total) := st in
    let st1 :=
      if Qle_bool (current_total + final_price item) budget
      then (shopping_list ++ [item], current_total + final_price item)%Q
      else st in
    if Qle_bool (budget * 0.95) (snd st1) then st1
    else budget_walk budget rest st1
  end.

Definition generate_shopping_list (pp : store) (budget : Q)
           (optimize_for : str) : result frame :=
  df <- loaded pp ;;
  promo_items <- arrange optimize_for (filter is_promo df) ;;
  Ok (fst (budget_walk budget promo_items ([], 0%Q))).

(** *** load_manual_flyer *)

(** [load_manual_flyer], from the parsed [products] on: the new value of
    [self.promo_products] and the returned frame. *)
Definition load_manual_flyer (pp : store) (products : frame) : store * frame :=
  (match pp with
   | None => Some products
   | Some df => Some (df ++ products)
   end, products).

(** *** analyze_current_promos *)








End Analyzer.

(** ** The contracts, as the specification words them *)

Module Spec.

(** [w] occurs as a substring of [s]. *)
Definition occurs_in (w s : str) : Prop :=
  exists pre post, s = pre ++ w ++ post.

(** ContextAssociator: a discount pair qualifies for a price context
    when one of its first five lower-cased tokens occurs in the
    lower-cased price context. *)
Definition qualifies (context : str) (pair : str * Z) : Prop :=
  exists word,
    In word (firstn 5 (PyStr.split (PyStr.lower (fst pair))))
    /\ occurs_in word (PyStr.lower context).


(** Categorizer: a category hits when one of its keywords occurs in the
    lower-cased context. *)
Definition hits (text : str) (entry : str * list str) : Prop :=
  exists keyword,
    In keyword (snd entry) /\ occurs_in keyword (PyStr.lower text).

(** [c] is the first category of the mapping that hits. *)
Definition first_category (kw : list (str * list str)) (text : str)
           (c : str) : Prop :=
  exists before keywords after,
    kw = before ++ (c, keywords) :: after
    /\ hits text (c, keywords)
    /\ Forall (fun entry => ~ hits text entry) before.

(** Sum of the final prices of the rows of a list. *)
Definition total_of (l : frame) : Q :=
  fold_right (fun r acc => final_price r + acc)%Q 0%Q l.

(** Every row of [l] fitted in the budget when it was taken: the total
    of the rows before it plus its own price does not exceed [budget]. *)
Definition within_budget (budget : Q) (l : frame) : Prop :=
  forall before item after,
    l = before ++ item :: after ->
    (total_of before + final_price item <= budget)%Q.

(** CartOptimizer: the cost of a cart, and the budget condition on
    every accepted item: the running total before it plus its price is
    at most the budget. *)
Definition cart_cost (l : list Analyzer.CartItem) : Q :=
  fold_right (fun i acc => Analyzer.c_price i + acc)%Q 0%Q l.

Definition cart_within_budget (budget : Q) (l : list Analyzer.CartItem)
  : Prop :=
  forall before item after,
    l = before ++ item :: after ->
    (cart_cost before + Analyzer.c_price item <= budget)%Q.

(** What the cart loop maintains. *)
Definition cart_consistent (budget : Q) (st : Analyzer.cart_state) : Prop :=
  (snd (fst st) == cart_cost (fst (fst st)))%Q
  /\ cart_within_budget budget (fst (fst st)).

(** ShoppingListBuilder: a candidate is appended, and the running
    total increased, when running total plus price fits the budget. *)
Definition accept (budget : Q) (st : Analyzer.list_state)
           (item : ProductRecord) : Analyzer.list_state :=
  if Qle_bool (snd st + final_price item) budget
  then (fst st ++ [item], snd st + final_price item)%Q
  else st.

(** Walking a whole sequence without the early stop. *)
Definition fill (budget : Q) (items : frame) (st : Analyzer.list_state)
  : Analyzer.list_state :=
  fold_left (accept budget) items st.

(** The early-stop threshold: the running total is at least 0.95 times
    the budget. *)
Definition reached (budget : Q) (st : Analyzer.list_state) : Prop :=
  (budget * 0.95 <= snd st)%Q.

Definition start : Analyzer.list_state := ([], 0%Q).

(** What the budget loop maintains: the running total is the sum of
    the list, and every row of the list fitted when it was taken. *)
Definition consistent (budget : Q) (st : Analyzer.list_state) : Prop :=
  (snd st == total_of (fst st))%Q /\ within_budget budget (fst st).

(** The rows of a store; none when nothing is loaded. *)
Definition rows (pp : Analyzer.store) : frame :=
  match pp with
  | Some df => df
  | None => []
  end.

(** The pairs of a list are in non-increasing order of [score]. *)
Definition descending {A} (score : A -> Q) (l : list A) : Prop :=
  StronglySorted (fun a b => (score b <= score a)%Q) l.

(** DealRanker: the score of a returned row, from its own columns. *)
Definition ratio (d : Analyzer.Deal) : Q :=
  (Analyzer.d_savings d / Analyzer.d_base_price d)%Q.

Definition deal_score (d : Analyzer.Deal) : Q :=
  (inject_Z (Analyzer.d_discount_pct d) * 0.7 + (ratio d * 100) * 0.3)%Q.





(** What a capturing item can have captured: characters of its class,
    as many as its quantifier allows. *)
Definition group_shape (it : Re.item) (g : str) : Prop :=
  Forall (fun c => Re.cls_matches (Re.i_cls it) c = true) g
  /\ match Re.i_quant it with
     | Re.One => List.length g = 1%nat
     | Re.Exactly n => List.length g = n
     | Re.Plus => (1 <= List.length g)%nat
     | _ => True
     end.

(** [m] is a match of [p] in [text]: it spans the characters
    [consumed], between offsets [start()] and [end()], and its groups
    have the shape the capturing items of [p] allow. *)
Definition match_of (p : Re.pattern) (text : str) (m : Re.match_obj) : Prop :=
  exists before consumed after,
    text = before ++ consumed ++ after
    /\ Re.m_start m = List.length before
    /\ Re.m_end m = (List.length before + List.length consumed)%nat
    /\ Forall2 group_shape (filter Re.i_capture p) (Re.m_groups m).

(** [w] is the substring of [text] from offset [i] to offset [j]. *)
Definition substring (text : str) (i j : Z) (w : str) : Prop :=
  exists pre post,
    text = pre ++ w ++ post
    /\ Z.of_nat (List.length pre) = i
    /\ Z.of_nat (List.length pre + List.length w) = j.

Definition starts_clean (s : str) : Prop :=
  match s with
  | [] => True
  | c :: _ => PyStr.isspace c = false
  end.

(** [t] is [w] without its leading and trailing whitespace. *)
Definition stripped (w t : str) : Prop :=
  exists l r,
    w = l ++ t ++ r
    /\ Forall (fun c => PyStr.isspace c = true) l
    /\ Forall (fun c => PyStr.isspace c = true) r
    /\ starts_clean t /\ starts_clean (rev t).

(** The window of a match: from 50 characters before its start to 50
    characters after its end, clipped to the text. *)
Definition window_of (text : str) (m : Re.match_obj) (w : str) : Prop :=
  substring text
    (Z.max 0 (Z.of_nat (Re.m_start m) - 50))
    (Z.min (Z.of_nat (List.length text)) (Z.of_nat (Re.m_end m) + 50)) w.

(** The context the code pairs with a match: its window, stripped. *)
Definition context_for (text : str) (m : Re.match_obj) (ctx : str) : Prop :=
  exists w, window_of text m w /\ stripped w ctx.

(** A price as the extractor finds it: a whole, non-negative number of
    cents. *)
Definition cents (p : Q) : Prop :=
  exists n : Z, 0 <= n /\ (p == inject_Z n / 100)%Q.

(** [l1] is [l2] with some elements left out, order kept. *)
Inductive subseq {A : Type} : list A -> list A -> Prop :=
| subseq_nil : subseq [] []
| subseq_skip : forall x l1 l2, subseq l1 l2 -> subseq l1 (x :: l2)
| subseq_take : forall x l1 l2, subseq l1 l2 -> subseq (x :: l1) (x :: l2).

(** The groups the capturing items of [p] fill from the chunks the items
    of [p] matched. *)
Fixpoint captured (p : Re.pattern) (chunks : list str) : list str :=
  match p, chunks with
  | it :: p', chunk :: chunks' =>
    if Re.i_capture it then chunk :: captured p' chunks'
    else captured p' chunks'
  | _, _ => []
  end.

(** [m] is a match of [p] in [text], item by item: the matched text is
    the concatenation of one chunk per item, every chunk is made of
    characters of its item's class, as many as the quantifier allows, and
    the groups are the chunks of the capturing items. *)
Definition parsed_as (p : Re.pattern) (text : str) (m : Re.match_obj) : Prop :=
  exists before chunks after,
    text = before ++ concat chunks ++ after
    /\ Forall2 group_shape p chunks
    /\ Re.m_start m = List.length before
    /\ Re.m_end m = (List.length before + List.length (concat chunks))%nat
    /\ Re.m_groups m = captured p chunks.

(** No two rows agree on both product name and final price. *)
Fixpoint distinct_keys (l : frame) : Prop :=
  match l with
  | [] => True
  | r :: l' =>
    Forall (fun x => Scraper.same_key x r = false) l' /\ distinct_keys l'
  end.

(** The cost of a cart, summed in the order the items were accepted. *)
Definition cart_sum (l : list Analyzer.CartItem) : Q :=
  fold_left (fun acc i => acc + Analyzer.c_price i)%Q l 0%Q.

Definition cart_saved (l : list Analyzer.CartItem) : Q :=
  fold_left (fun acc i =>
               acc + (Analyzer.c_original_price i - Analyzer.c_price i))%Q l 0%Q.

(** The number of rows of a category. *)
Definition available (df : frame) (category_ : str) : nat :=
  List.length (filter (fun r => PyStr.eqb (category r) category_) df).

(** The cart item made from a row for a requested category. *)
Definition item_of (category_ : str) (r : ProductRecord) : Analyzer.CartItem :=
  {| Analyzer.c_retailer := retailer r;
     Analyzer.c_product := product_name r;
     Analyzer.c_category := category_;
     Analyzer.c_price := final_price r;
     Analyzer.c_original_price := base_price r;
     Analyzer.c_discount := discount_pct r;
     Analyzer.c_is_promo := is_promo r |}.

(** The rows the 'variety' strategy keeps for one category: its two
    cheapest promo rows. *)
Definition variety_chunk (promo_items : frame) (c : str) : frame :=
  Frame.nsmallest 2 final_price
    (filter (fun r => PyStr.eqb (category r) c) promo_items).

End Spec.

(** ** Sample data *)

Module Sample.

Definition row (retailer_ name category_ : string) (base final : Q) (d : Z)
  : ProductRecord :=
  {| retailer := PyStr.lit retailer_;
     product_name := PyStr.lit name;
     category := PyStr.lit category_;
     base_price := base;
     final_price := final;
     discount_pct := d;
     is_promo := 0 <? d;
     source_file := PyStr.lit "flyer.pdf";
     parsed_date := 0 |}.

Definition juice := row "Rimi" "Sultys" "Gėrimai" 1.5 1.5 0.
Definition water := row "Maxima" "Vanduo" "Gėrimai" 2 2 0.
Definition coffee := row "IKI" "Kava" "Gėrimai" 5 5 0.

Definition ham := row "Maxima" "Kumpis" "Mėsa ir mėsos gaminiai" 12 6 50.
Definition cheese := row "Rimi" "Sūris" "Pieno produktai" 6 3.6 40.
Definition bun := row "Lidl" "Bandelė" "Duona ir konditerija" 0.4 0.3 25.

End Sample.

(** * Properties *)

(** ** Strings *)

Section StringFacts.

Lemma eqb_eq (a b : str) : PyStr.eqb a b = true <-> a = b.
Proof.
  revert b; induction a as [|x a IH]; intros [|y b]; simpl;
    try (split; (discriminate || reflexivity)).
  rewrite andb_true_iff, N.eqb_eq, IH.
  split; [intros [-> ->]; reflexivity | intros [= -> ->]; auto].
Qed.

Lemma eqb_refl (a : str) : PyStr.eqb a a = true.
Proof. apply eqb_eq; reflexivity. Qed.

Lemma startswith_spec (p s : str) :
  PyStr.startswith p s = true <-> exists post, s = p ++ post.
Proof.
  revert s; induction p as [|x p IH]; intros s; simpl.
  - split; [intros _; exists s; reflexivity | reflexivity].
  - destruct s as [|y s].
    + split; [discriminate | intros [post H]; discriminate].
    + rewrite andb_true_iff, N.eqb_eq, IH. split.
      * intros [-> [post ->]]. exists post; reflexivity.
      * intros [post [= -> ->]]. split; [reflexivity | exists post; reflexivity].
Qed.

(** The [in] operator on strings decides substring occurrence. *)
Lemma contains_spec (w s : str) :
  PyStr.contains w s = true <-> Spec.occurs_in w s.
Proof.
  unfold Spec.occurs_in. induction s as [|c s IH].
  - simpl. rewrite orb_false_r, startswith_spec. split.
    + intros [post H]. exists [], post. exact H.
    + intros [pre [post H]]. destruct pre; [exists post; exact H | discriminate].
  - cbn [PyStr.contains]. rewrite orb_true_iff, startswith_spec, IH. split.
    + intros [[post H] | [pre [post H]]].
      * exists [], post. exact H.
      * exists (c :: pre), post. rewrite H. reflexivity.
    + intros [pre [post H]]. destruct pre as [|c' pre].
      * left. exists post. exact H.
      * right. injection H as _ H. exists pre, post. exact H.
Qed.

End StringFacts.

(** ** ContextAssociator *)

Section Association.

Variable context : str.

(** The test of the loop body decides [Spec.qualifies]. *)
Lemma qualifies_dec (pair : str * Z) :
  existsb (fun word => PyStr.contains word (PyStr.lower context))
          (firstn 5 (PyStr.split (PyStr.lower (fst pair)))) = true
  <-> Spec.qualifies context pair.
Proof.
  unfold Spec.qualifies. rewrite existsb_exists.
  split; intros [w [Hin Hw]]; exists w; split; auto;
    apply contains_spec; exact Hw.
Qed.

End Association.


(** ** Categorizer *)

Section Categorizer.

Variable text : str.

Lemma hits_dec (entry : str * list str) :
  existsb (fun keyword => PyStr.contains keyword (PyStr.lower text))
          (snd entry) = true
  <-> Spec.hits text entry.
Proof.
  unfold Spec.hits. rewrite existsb_exists.
  split; intros [w [Hin Hw]]; exists w; split; auto;
    apply contains_spec; exact Hw.
Qed.

(** [categorize_product] over any insertion-ordered mapping. *)
Lemma categorize_first (kw : list (str * list str)) :
  match Scraper.categorize_with kw text with
  | Some c => Spec.first_category kw text c
  | None => Forall (fun entry => ~ Spec.hits text entry) kw
  end.
Proof.
  unfold Scraper.categorize_with.
  induction kw as [|[c ks] rest IH]; simpl.
  - constructor.
  - destruct (existsb _ ks) eqn:E; simpl.
    + exists [], ks, rest. repeat split; [|constructor].
      apply hits_dec. exact E.
    + assert (Hn : ~ Spec.hits text (c, ks)).
      { intros Hq. apply hits_dec in Hq. simpl in Hq. congruence. }
      destruct (find _ rest) as [[c' ks']|]; simpl in *.
      * destruct IH as [before [ks1 [after [Heq [Hq Hb]]]]].
        exists ((c, ks) :: before), ks1, after.
        rewrite Heq at 1. repeat split; auto.
      * constructor; auto.
Qed.

Lemma first_category_label (kw : list (str * list str)) (c : str) :
  Spec.first_category kw text c -> In c (List.map fst kw).
Proof.
  intros [before [ks [after [-> _]]]].
  rewrite map_app, in_app_iff. right. left. reflexivity.
Qed.

End Categorizer.

Lemma category_labels_nonempty :
  Forall (fun c => c <> []) (List.map fst Scraper.category_keywords).
Proof. repeat constructor; discriminate. Qed.

(** C7. For every context string the assigned category is the first
    category, in the insertion order of the configured mapping, with a
    keyword that occurs as a substring of the lower-cased context; when no
    keyword matches, the record gets the fallback label 'Kita'.  The record
    built for the context carries exactly this label. *)
Theorem categorizer_first_match (text : str) :
  let assigned := Scraper.category_or_kita (Scraper.categorize_product text) in
  (Spec.first_category Scraper.category_keywords text assigned
   \/ (Forall (fun entry => ~ Spec.hits text entry) Scraper.category_keywords
       /\ assigned = PyStr.lit "Kita"))
  /\ forall retailer_ source now discounts price,
       match Scraper.build_product Scraper.category_keywords retailer_ source
                                   now discounts (text, price) with
       | Ok r => category r = assigned
       | Raise _ => True
       end.
Proof.
  split.
  - unfold Scraper.categorize_product.
    pose proof (categorize_first text Scraper.category_keywords) as H.
    destruct (Scraper.categorize_with _ text) as [c|].
    + left. pose proof (first_category_label H) as Hin.
      pose proof category_labels_nonempty as Hne.
      rewrite Forall_forall in Hne. specialize (Hne _ Hin).
      destruct c as [|x r]; [congruence | exact H].
    + right. split; [exact H | reflexivity].
  - intros. unfold Scraper.build_product, Scraper.categorize_product.
    destruct (Scraper.derive_prices _ _); simpl; auto.
Qed.

(** ** ShoppingListBuilder *)

Section BudgetWalk.

Variable budget : Q.

Lemma walk_cons (item : ProductRecord) (rest : frame) (st : Analyzer.list_state) :
  Analyzer.budget_walk budget (item :: rest) st =
  if Qle_bool (budget * 0.95) (snd (Spec.accept budget st item))
  then Spec.accept budget st item
  else Analyzer.budget_walk budget rest (Spec.accept budget st item).
Proof.
  destruct st as [l t]. unfold Spec.accept. simpl.
  destruct (Qle_bool (t + final_price item) budget); reflexivity.
Qed.

(** The walk visits a prefix of the candidates, treats it exactly as
    the unconditional fill does, and the prefix ends at the first
    candidate after which the threshold is reached. *)
Lemma walk_prefix (items : frame) : forall st,
  exists visited unvisited,
    items = visited ++ unvisited
    /\ Analyzer.budget_walk budget items st = Spec.fill budget visited st
    /\ (unvisited <> [] ->
        Spec.reached budget (Analyzer.budget_walk budget items st))
    /\ (forall pre suf, visited = pre ++ suf -> pre <> [] -> suf <> [] ->
        ~ Spec.reached budget (Spec.fill budget pre st)).
Proof.
  induction items as [|item rest IH]; intros st.
  - exists [], []. repeat split; try congruence.
    intros pre suf H. destruct pre; [congruence | discriminate].
  - rewrite walk_cons. destruct (Qle_bool _ _) eqn:E.
    + exists [item], rest. repeat split.
      * intros _. apply Qle_bool_iff. exact E.
      * intros [|x [|y pre]] suf H Hp Hs; try congruence;
          destruct suf; try congruence; discriminate.
    + destruct (IH (Spec.accept budget st item))
        as [visited [unvisited [Heq [Hw [Hr Hp]]]]].
      exists (item :: visited), unvisited. repeat split.
      * simpl. congruence.
      * exact Hw.
      * exact Hr.
      * intros [|x pre] suf H Hne Hs; [congruence|].
        injection H as <- H. destruct pre as [|y pre].
        -- simpl. unfold Spec.reached. rewrite <- Qle_bool_iff. congruence.
        -- apply (Hp (y :: pre) suf H); [discriminate | exact Hs].
Qed.

Lemma total_of_snoc (l : frame) (r : ProductRecord) :
  (Spec.total_of (l ++ [r]) == Spec.total_of l + final_price r)%Q.
Proof.
  induction l as [|x l IH]; simpl.
  - ring.
  - rewrite IH. ring.
Qed.

Lemma snoc_split {A} (l : list A) (x : A) : forall before it after,
  l ++ [x] = before ++ it :: after ->
  (after = [] /\ before = l /\ it = x)
  \/ exists after', after = after' ++ [x] /\ l = before ++ it :: after'.
Proof.
  induction l as [|y l IH]; intros before it after H.
  - destruct before as [|b before].
    + injection H as <- <-. left. auto.
    + injection H as _ H. destruct before; discriminate.
  - destruct before as [|b before].
    + injection H as <- H. right.
      destruct after as [|a after]; [destruct l; discriminate|].
      destruct (@exists_last _ (a :: after)) as [after' [z Hz]]; [discriminate|].
      rewrite Hz in H. apply app_inj_tail in H. destruct H as [-> <-].
      exists after'. split; [exact Hz | reflexivity].
    + injection H as <- H. destruct (IH _ _ _ H) as [[-> [-> ->]] | [a' [-> ->]]].
      * left. auto.
      * right. exists a'. auto.
Qed.

Lemma accept_consistent (st : Analyzer.list_state) (item : ProductRecord) :
  Spec.consistent budget st -> Spec.consistent budget (Spec.accept budget st item).
Proof.
  intros [Ht Hw]. unfold Spec.accept.
  destruct (Qle_bool _ _) eqn:E; [|split; assumption].
  apply Qle_bool_iff in E. split; simpl.
  - rewrite total_of_snoc, Ht. reflexivity.
  - intros before it after H.
    apply snoc_split in H. destruct H as [[-> [-> ->]] | [a' [-> Hl]]].
    + rewrite <- Ht. exact E.
    + apply (Hw _ _ _ Hl).
Qed.

Lemma fill_consistent (items : frame) : forall st,
  Spec.consistent budget st -> Spec.consistent budget (Spec.fill budget items st).
Proof.
  induction items as [|item rest IH]; intros st H; simpl; auto.
  apply IH, accept_consistent, H.
Qed.

Lemma start_consistent : Spec.consistent budget Spec.start.
Proof.
  split; simpl; [reflexivity|].
  intros before it after H. destruct before; discriminate.
Qed.

End BudgetWalk.


(** The stop can leave an affordable candidate unvisited: with budget 10
    and prices 6, 3.6, 0.3 the walk ends at 9.6 and never sees the last
    row, which would still fit. *)
Example walk_leaves_affordable_unvisited :
  Analyzer.budget_walk 10 [Sample.ham; Sample.cheese; Sample.bun] Spec.start
  = ([Sample.ham; Sample.cheese], 0 + 6 + 3.6)%Q
  /\ (0 + 6 + 3.6 + final_price Sample.bun <= 10)%Q.
Proof. split; [reflexivity | vm_compute; discriminate]. Qed.

Section Strategies.

Lemma eqb_neq (a b : str) : a <> b -> PyStr.eqb a b = false.
Proof.
  intros H. destruct (PyStr.eqb a b) eqn:E; [|reflexivity].
  apply eqb_eq in E. contradiction.
Qed.

(** A value outside the three recognised ones falls through the
    [if/elif] chain: the promo rows are left as they are. *)
Lemma arrange_unrecognised (optimize_for : str) (promo_items : frame) :
  optimize_for <> PyStr.lit "savings" ->
  optimize_for <> PyStr.lit "variety" ->
  optimize_for <> PyStr.lit "single_retailer" ->
  Analyzer.arrange optimize_for promo_items = Ok promo_items.
Proof.
  intros H1 H2 H3. unfold Analyzer.arrange, Analyzer.is_savings,
    Analyzer.is_variety, Analyzer.is_single_retailer.
  rewrite (eqb_neq H1), (eqb_neq H2), (eqb_neq H3). reflexivity.
Qed.

Lemma sort_nil {A} (le : A -> A -> bool) : Frame.sort le [] = [].
Proof. reflexivity. Qed.

Lemma loaded_nonempty (df : frame) :
  df <> [] -> Analyzer.loaded (Some df) = Ok df.
Proof. destruct df; [congruence | reflexivity]. Qed.

End Strategies.

(** C10.  Called with a strategy value other than 'savings', 'variety'
    or 'single_retailer', [generate_shopping_list] signals no error on
    account of the strategy: the promo rows are neither reordered nor
    filtered, and on a loaded collection the result is the budget walk
    over all promo rows in collection order. *)
Theorem unrecognised_strategy_keeps_order (optimize_for : str) (budget : Q)
        (df : frame) :
  optimize_for <> PyStr.lit "savings" ->
  optimize_for <> PyStr.lit "variety" ->
  optimize_for <> PyStr.lit "single_retailer" ->
  df <> [] ->
  Analyzer.arrange optimize_for (filter is_promo df) = Ok (filter is_promo df)
  /\ Analyzer.generate_shopping_list (Some df) budget optimize_for
     = Ok (fst (Analyzer.budget_walk budget (filter is_promo df) Spec.start)).
Proof.
  intros H1 H2 H3 Hdf.
  pose proof (arrange_unrecognised (filter is_promo df) H1 H2 H3) as Ha.
  split; [exact Ha|].
  unfold Analyzer.generate_shopping_list.
  rewrite (loaded_nonempty Hdf). simpl. rewrite Ha. reflexivity.
Qed.

Lemma unrecognised_strategy_keeps_order_witness :
  Analyzer.generate_shopping_list
    (Some [Sample.juice; Sample.ham; Sample.cheese; Sample.bun]) 10
    (PyStr.lit "cheapest")
  = Ok [Sample.ham; Sample.cheese].
Proof.
  refine (eq_trans
    (proj2 (@unrecognised_strategy_keeps_order (PyStr.lit "cheapest") 10
              [Sample.juice; Sample.ham; Sample.cheese; Sample.bun] _ _ _ _)) _);
    try (vm_compute; discriminate).
  reflexivity.
Defined.

(** The claim that an empty set of promo candidates gives an empty list
    and no error fails: an empty collection is refused by the opening
    guard, and 'single_retailer' on a collection without promo rows fails
    in [idxmax]. *)
Lemma empty_promo_set_raises :
  filter is_promo (Spec.rows (Some [])) = []
  /\ Analyzer.generate_shopping_list (Some []) 10 (PyStr.lit "savings")
     = Raise Analyzer.no_data
  /\ filter is_promo (Spec.rows (Some [Sample.juice])) = []
  /\ exists e,
       Analyzer.generate_shopping_list (Some [Sample.juice]) 10
                                       (PyStr.lit "single_retailer")
       = Raise e.
Proof. repeat split. eexists. reflexivity. Qed.

(** C9 (amended).  For every budget: on a loaded, non-empty collection
    that holds no promo row, the strategies 'savings' and 'variety' return
    an empty list without raising; a missing or empty collection is
    refused with "No promo data loaded." under every strategy. *)
Theorem shopping_list_without_promos (budget : Q) (df : frame) :
  df <> [] ->
  filter is_promo df = [] ->
  Analyzer.generate_shopping_list (Some df) budget (PyStr.lit "savings") = Ok []
  /\ Analyzer.generate_shopping_list (Some df) budget (PyStr.lit "variety") = Ok []
  /\ forall optimize_for,
       Analyzer.generate_shopping_list None budget optimize_for
       = Raise Analyzer.no_data
       /\ Analyzer.generate_shopping_list (Some []) budget optimize_for
          = Raise Analyzer.no_data.
Proof.
  intros Hdf Hp. unfold Analyzer.generate_shopping_list.
  rewrite (loaded_nonempty Hdf). simpl. rewrite Hp.
  repeat split.
Qed.

Lemma shopping_list_without_promos_witness :
  Analyzer.generate_shopping_list (Some [Sample.juice; Sample.water]) 10
                                  (PyStr.lit "savings") = Ok []
  /\ Analyzer.generate_shopping_list (Some [Sample.juice; Sample.water]) 10
                                     (PyStr.lit "variety") = Ok [].
Proof.
  pose proof (@shopping_list_without_promos 10 [Sample.juice; Sample.water])
    as H.
  destruct H as [H1 [H2 _]]; [discriminate | reflexivity |].
  split; [exact H1 | exact H2].
Defined.

(** ** CartOptimizer *)

Section CartLoop.

Variable b : Q.
Hypothesis b_nonzero : ~ (b == 0)%Q.

Lemma truthy_nonzero : Analyzer.truthy (Some b) = true.
Proof.
  simpl. destruct (Qeq_bool b 0) eqn:E; [|reflexivity].
  apply Qeq_bool_iff in E. contradiction.
Qed.

Lemma cart_cost_snoc (l : list Analyzer.CartItem) (i : Analyzer.CartItem) :
  (Spec.cart_cost (l ++ [i]) == Spec.cart_cost l + Analyzer.c_price i)%Q.
Proof.
  induction l as [|x l IH]; simpl.
  - ring.
  - rewrite IH. ring.
Qed.

Lemma add_product_consistent (c : str) (st : Analyzer.cart_state)
      (product : ProductRecord) :
  Spec.cart_consistent b st ->
  Spec.cart_consistent b (Analyzer.add_product (Some b) c st product).
Proof.
  destruct st as [[l t] sv]. intros [Ht Hw]. simpl in Ht, Hw.
  unfold Analyzer.add_product, Analyzer.over_budget.
  rewrite truthy_nonzero. simpl andb.
  destruct (Qle_bool (t + final_price product) b) eqn:E; simpl;
    [|split; assumption].
  apply Qle_bool_iff in E. split; simpl.
  - rewrite cart_cost_snoc, Ht. reflexivity.
  - intros before it after H.
    apply snoc_split in H. destruct H as [[-> [-> ->]] | [a' [-> Hl]]].
    + simpl. rewrite <- Ht. exact E.
    + apply (Hw _ _ _ Hl).
Qed.

Lemma add_products_consistent (c : str) (products : frame) : forall st,
  Spec.cart_consistent b st ->
  Spec.cart_consistent b
    (fold_left (Analyzer.add_product (Some b) c) products st).
Proof.
  induction products as [|x l IH]; intros st H; simpl; auto.
  apply IH, add_product_consistent, H.
Qed.

Lemma fill_cart_consistent (df : frame) (desired : list (str * Z)) :
  forall st,
    Spec.cart_consistent b st ->
    Spec.cart_consistent b (Analyzer.fill_cart df (Some b) desired st).
Proof.
  unfold Analyzer.fill_cart.
  induction desired as [|[c qty] rest IH]; intros st H; simpl; auto.
  apply IH, add_products_consistent, H.
Qed.

(** With a budget other than zero, every item of the returned cart
    fitted when it was accepted. *)
Lemma cart_respects_nonzero_budget (pp : Analyzer.store)
      (desired : list (str * Z)) :
  match Analyzer.optimize_shopping_cart pp desired (Some b) with
  | Ok c => Spec.cart_within_budget b (Analyzer.cart c)
  | Raise e => Analyzer.loaded pp = Raise e
  end.
Proof.
  unfold Analyzer.optimize_shopping_cart.
  destruct (Analyzer.loaded pp) as [df|e]; simpl; [|reflexivity].
  pose proof (@fill_cart_consistent df desired ([], 0, 0)%Q) as H.
  destruct (Analyzer.fill_cart df (Some b) desired ([], 0, 0)%Q)
    as [[l t] sv]. simpl.
  apply H. split; simpl; [reflexivity|].
  intros before it after Heq. destruct before; discriminate.
Qed.

End CartLoop.

Section CartSkips.

Variable budget : option Q.
Variable c : str.

(** A product that does not fit is passed over and the loop goes on
    with the next one: the outcome is that of the selection without it. *)
Lemma skip_is_local (l1 l2 : frame) (x : ProductRecord)
      (st : Analyzer.cart_state) :
  let st1 := fold_left (Analyzer.add_product budget c) l1 st in
  Analyzer.over_budget budget (snd (fst st1)) (final_price x) = true ->
  fold_left (Analyzer.add_product budget c) (l1 ++ x :: l2) st
  = fold_left (Analyzer.add_product budget c) (l1 ++ l2) st.
Proof.
  intros st1 H. rewrite !fold_left_app. fold st1. simpl.
  destruct st1 as [[l t] sv]. simpl in H.
  unfold Analyzer.add_product at 2. rewrite H. reflexivity.
Qed.

End CartSkips.

(** A budget of 3 and two drinks wanted: the two cheapest are 1.50 and
    2.00; the first is taken, the second would bring the total to 3.50 and
    is passed over, so the cart holds one item for a request of two. *)
Example cart_may_hold_fewer :
  match Analyzer.optimize_shopping_cart
          (Some [Sample.coffee; Sample.water; Sample.juice])
          [(PyStr.lit "Gėrimai", 2)] (Some 3%Q) with
  | Ok c => List.map Analyzer.c_price (Analyzer.cart c) = [1.5%Q]
            /\ (Analyzer.total_cost c == 1.5)%Q
            /\ Analyzer.items_count c = 1%nat
  | Raise _ => False
  end.
Proof. vm_compute. repeat split. Qed.

(** C3.  With a budget of 0, which the test [if budget and ...] takes for
    no budget at all, an item priced 1.50 is accepted although
    0 + 1.50 exceeds the budget. *)
Theorem cart_zero_budget_is_no_budget :
  match Analyzer.optimize_shopping_cart (Some [Sample.juice])
          [(PyStr.lit "Gėrimai", 1)] (Some 0%Q) with
  | Ok c => List.map Analyzer.c_price (Analyzer.cart c) = [1.5%Q]
            /\ ~ Spec.cart_within_budget 0 (Analyzer.cart c)
  | Raise _ => False
  end.
Proof.
  vm_compute. split; [reflexivity|].
  intros H. specialize (H [] _ [] eq_refl). vm_compute in H.
  apply H. reflexivity.
Qed.

(** ** RecordBuilder *)

Section Prices.

Lemma full_discount (d : Z) : (1 - inject_Z d / 100 == 0)%Q <-> d = 100.
Proof.
  rewrite <- (inject_Z_injective d 100). split; intros H.
  - setoid_replace (inject_Z d) with (100 * (1 - (1 - inject_Z d / 100)))%Q
      by field.
    rewrite H. reflexivity.
  - rewrite H. reflexivity.
Qed.

Lemma py_div_defined (price : Q) (d : Z) :
  d <> 100 ->
  Num.py_div price (1 - inject_Z d / 100)
  = Ok (price / (1 - inject_Z d / 100))%Q.
Proof.
  intros H. unfold Num.py_div.
  destruct (Qeq_bool _ 0) eqn:E; [|reflexivity].
  apply Qeq_bool_iff, full_discount in E. contradiction.
Qed.

Lemma py_div_full_discount (price : Q) :
  Num.py_div price (1 - inject_Z 100 / 100) = Raise ZeroDivisionError.
Proof. reflexivity. Qed.

Lemma derive_prices_defined (price : Q) (d : Z) :
  d <> 100 ->
  Scraper.derive_prices price d
  = Ok (if 0 <? d then Num.round2 (price / (1 - inject_Z d / 100)) else price,
        price).
Proof.
  intros H. unfold Scraper.derive_prices.
  destruct (0 <? d); [|reflexivity].
  rewrite (py_div_defined price H). reflexivity.
Qed.

End Prices.




(** ** Sorting and selection *)

Section SortFacts.

Variable A : Type.
Variable le : A -> A -> bool.
Hypothesis le_total : forall a b, le a b = true \/ le b a = true.
Hypothesis le_trans : forall a b c, le a b = true -> le b c = true -> le a c = true.

Lemma insert_perm (x : A) (l : list A) :
  Permutation (Frame.insert le x l) (x :: l).
Proof.
  induction l as [|y l IH]; simpl; [reflexivity|].
  destruct (le x y); [reflexivity|].
  rewrite IH. apply perm_swap.
Qed.

Lemma sort_perm (l : list A) : Permutation (Frame.sort le l) l.
Proof.
  induction l as [|x l IH]; simpl; [reflexivity|].
  rewrite insert_perm, IH. reflexivity.
Qed.

Lemma insert_sorted (x : A) (l : list A) :
  StronglySorted (fun a b => le a b = true) l ->
  StronglySorted (fun a b => le a b = true) (Frame.insert le x l).
Proof.
  induction 1 as [|y l Hs IH Hy]; simpl.
  - repeat constructor.
  - destruct (le x y) eqn:E.
    + constructor; [constructor; assumption|].
      constructor; [exact E|].
      rewrite Forall_forall in Hy |- *. intros z Hz.
      apply (le_trans E (Hy z Hz)).
    + constructor; [exact IH|].
      rewrite Forall_forall in Hy |- *. intros z Hz.
      apply (Permutation_in _ (insert_perm x l)) in Hz.
      destruct Hz as [<- | Hz]; [|auto].
      destruct (le_total x y) as [H|H]; [congruence | exact H].
Qed.

Lemma sort_sorted (l : list A) :
  StronglySorted (fun a b => le a b = true) (Frame.sort le l).
Proof.
  induction l as [|x l IH]; simpl; [constructor|].
  apply insert_sorted, IH.
Qed.

End SortFacts.

Section SortedFacts.

Variable A : Type.
Variable R : A -> A -> Prop.

Lemma sorted_app (l1 l2 : list A) :
  StronglySorted R (l1 ++ l2) ->
  StronglySorted R l1
  /\ forall a b, In a l1 -> In b l2 -> R a b.
Proof.
  induction l1 as [|x l1 IH]; simpl; intros H.
  - split; [constructor | intros a b []].
  - inversion H as [|? ? Hs Hx]; subst.
    destruct (IH Hs) as [H1 H2]. split.
    + constructor; [exact H1|].
      rewrite Forall_forall in Hx |- *. intros z Hz.
      apply Hx, in_or_app. left. exact Hz.
    + intros a b [<- | Ha] Hb.
      * rewrite Forall_forall in Hx. apply Hx, in_or_app. right. exact Hb.
      * apply H2; assumption.
Qed.




End SortedFacts.

(** ** DealRanker *)

Section DealRanking.




Lemma descending_sorted {A} (key : A -> Q) (l : list A) :
  Spec.descending key (Frame.sort_descending key l).
Proof.
  unfold Spec.descending, Frame.sort_descending.
  eapply StronglySorted_ind with
    (P := fun l => StronglySorted (fun a b => (key b <= key a)%Q) l).
  - constructor.
  - intros a l0 _ IH Ha. constructor; [exact IH|].
    eapply Forall_impl; [|exact Ha]. intros b Hb.
    apply Qle_bool_iff. exact Hb.
  - apply sort_sorted.
    + intros a b. rewrite !Qle_bool_iff.
      destruct (Qlt_le_dec (key a) (key b)) as [H|H]; [right | left]; auto.
      apply Qlt_le_weak, H.
    + intros a b c. rewrite !Qle_bool_iff. intros H1 H2.
      eapply Qle_trans; eassumption.
Qed.

Lemma loaded_rows (pp : Analyzer.store) (df : frame) :
  Analyzer.loaded pp = Ok df -> Spec.rows pp = df /\ df <> [].
Proof.
  destruct pp as [[|r l]|]; simpl; try discriminate.
  intros [= <-]. split; [reflexivity | discriminate].
Qed.


End DealRanking.



(** ** The matcher *)

Section Matcher.

Variable f : char -> bool.
Variable k : Re.kont.

Lemma exactly_inv (n : nat) : forall s pos acc r,
  Re.exactly f n k s pos acc = Some r ->
  exists taken s',
    s = taken ++ s'
    /\ Forall (fun c => f c = true) taken
    /\ List.length taken = n
    /\ k s' (pos + List.length taken)%nat (rev acc ++ taken) = Some r.
Proof.
  induction n as [|n IH]; intros s pos acc r H; simpl in H.
  - exists [], s. rewrite Nat.add_0_r, (app_nil_r (rev acc)). auto.
  - destruct s as [|c s]; [discriminate|].
    destruct (f c) eqn:Ec; [|discriminate].
    destruct (IH _ _ _ _ H) as [taken [s' [-> [Hf [Hl Hk]]]]].
    exists (c :: taken), s'. simpl in Hk |- *.
    rewrite <- app_assoc in Hk. simpl in Hk.
    rewrite Nat.add_succ_r. auto.
Qed.

Lemma greedy_inv : forall s pos acc r,
  Re.greedy f k s pos acc = Some r ->
  exists taken s',
    s = taken ++ s'
    /\ Forall (fun c => f c = true) taken
    /\ k s' (pos + List.length taken)%nat (rev acc ++ taken) = Some r.
Proof.
  assert (Hstop : forall s pos acc r,
             k s pos (rev acc) = Some r ->
             exists taken s',
               s = taken ++ s'
               /\ Forall (fun c => f c = true) taken
               /\ k s' (pos + List.length taken)%nat (rev acc ++ taken) = Some r).
  { intros s pos acc r H. exists [], s.
    rewrite Nat.add_0_r, (app_nil_r (rev acc)). auto. }
  induction s as [|c s IH]; intros pos acc r H; simpl in H; [auto|].
  destruct (f c) eqn:Ec; [|auto].
  destruct (Re.greedy f k s (S pos) (c :: acc)) as [r'|] eqn:Eg; [|auto].
  injection H as ->.
  destruct (IH _ _ _ Eg) as [taken [s' [-> [Hf Hk]]]].
  exists (c :: taken), s'. simpl in Hk |- *.
  rewrite <- app_assoc in Hk. simpl in Hk.
  rewrite Nat.add_succ_r. auto.
Qed.

Lemma lazy_inv : forall s pos acc r,
  Re.lazy f k s pos acc = Some r ->
  exists taken s',
    s = taken ++ s'
    /\ Forall (fun c => f c = true) taken
    /\ k s' (pos + List.length taken)%nat (rev acc ++ taken) = Some r.
Proof.
  induction s as [|c s IH]; intros pos acc r H; simpl in H;
    destruct (k _ pos (rev acc)) as [r'|] eqn:Ek;
    try discriminate.
  - injection H as ->. exists [], []. rewrite Nat.add_0_r, (app_nil_r (rev acc)). auto.
  - injection H as ->. exists [], (c :: s).
    rewrite Nat.add_0_r, (app_nil_r (rev acc)). auto.
  - destruct (f c) eqn:Ec; [|discriminate].
    destruct (IH _ _ _ H) as [taken [s' [-> [Hf Hk]]]].
    exists (c :: taken), s'. simpl in Hk |- *.
    rewrite <- app_assoc in Hk. simpl in Hk.
    rewrite Nat.add_succ_r. auto.
Qed.

End Matcher.

Section MatchShape.

Import Re.

(** A successful match consumes a prefix of the text it is given, and
    every group it adds was captured by the matching item. *)
Lemma match_here_inv (p : pattern) : forall s pos caps e gs,
  match_here p s pos caps = Some (e, gs) ->
  exists consumed s' gs',
    s = consumed ++ s'
    /\ e = (pos + List.length consumed)%nat
    /\ gs = rev caps ++ gs'
    /\ Forall2 Spec.group_shape (filter i_capture p) gs'.
Proof.
  induction p as [|it p IH]; intros s pos caps e gs H.
  - injection H as <- <-. exists [], s, [].
    rewrite Nat.add_0_r, app_nil_r. repeat split. constructor.
  - assert (Hstep : forall taken s1,
               Spec.group_shape it taken ->
               match_here p s1 (pos + List.length taken)%nat
                 (if i_capture it then taken :: caps else caps) = Some (e, gs) ->
               exists consumed s' gs',
                 taken ++ s1 = consumed ++ s'
                 /\ e = (pos + List.length consumed)%nat
                 /\ gs = rev caps ++ gs'
                 /\ Forall2 Spec.group_shape (filter i_capture (it :: p)) gs').
    { intros taken s1 Hshape Hm.
      destruct (IH _ _ _ _ _ Hm) as [consumed [s' [gs' [-> [-> [-> Hg]]]]]].
      simpl. destruct (i_capture it).
      - exists (taken ++ consumed), s', (taken :: gs').
        rewrite length_app, Nat.add_assoc, <- !app_assoc. simpl.
        rewrite <- app_assoc. repeat split. constructor; assumption.
      - exists (taken ++ consumed), s', gs'.
        rewrite length_app, Nat.add_assoc, <- app_assoc. repeat split.
        assumption. }
    cbn [match_here] in H.
    destruct (i_quant it) eqn:Eq.
    + apply exactly_inv in H.
      destruct H as [taken [s1 [-> [Hf [Hl Hk]]]]].
      apply Hstep; [|exact Hk]. split; [exact Hf | rewrite Eq; exact Hl].
    + apply exactly_inv in H.
      destruct H as [taken [s1 [-> [Hf [Hl Hk]]]]].
      apply Hstep; [|exact Hk]. split; [exact Hf | rewrite Eq; exact Hl].
    + destruct s as [|c s]; [discriminate|].
      destruct (cls_matches (i_cls it) c) eqn:Ec; [|discriminate].
      apply greedy_inv in H.
      destruct H as [taken [s1 [-> [Hf Hk]]]].
      apply (Hstep (c :: taken) s1).
      * split; [constructor; assumption | rewrite Eq; simpl; lia].
      * simpl in Hk |- *. rewrite Nat.add_succ_r. exact Hk.
    + apply greedy_inv in H.
      destruct H as [taken [s1 [-> [Hf Hk]]]].
      apply Hstep; [|exact Hk]. split; [exact Hf | rewrite Eq; exact I].
    + apply lazy_inv in H.
      destruct H as [taken [s1 [-> [Hf Hk]]]].
      apply Hstep; [|exact Hk]. split; [exact Hf | rewrite Eq; exact I].
Qed.

(** Every match [finditer] reports is a match of the pattern in the
    text, at the offsets it carries. *)
Lemma finditer_from_match (p : pattern) (m : match_obj) :
  forall s pos skip,
    In m (finditer_from p s pos skip) ->
    exists before consumed after,
      s = before ++ consumed ++ after
      /\ m_start m = (pos + List.length before)%nat
      /\ m_end m = (m_start m + List.length consumed)%nat
      /\ Forall2 Spec.group_shape (filter i_capture p) (m_groups m).
Proof.
  assert (Hshift : forall c s pos skip,
             (In m (finditer_from p s (S pos) skip) ->
              exists before consumed after,
                s = before ++ consumed ++ after
                /\ m_start m = (S pos + List.length before)%nat
                /\ m_end m = (m_start m + List.length consumed)%nat
                /\ Forall2 Spec.group_shape (filter i_capture p) (m_groups m)) ->
             In m (finditer_from p s (S pos) skip) ->
             exists before consumed after,
               c :: s = before ++ consumed ++ after
               /\ m_start m = (pos + List.length before)%nat
               /\ m_end m = (m_start m + List.length consumed)%nat
               /\ Forall2 Spec.group_shape (filter i_capture p) (m_groups m)).
  { intros c s pos skip IH Hin.
    destruct (IH Hin) as [before [consumed [after [-> [Hs [He Hg]]]]]].
    exists (c :: before), consumed, after. simpl.
    rewrite Nat.add_succ_r. auto. }
  induction s as [|c s IH]; intros pos skip Hin; simpl in Hin; [contradiction|].
  destruct skip as [|skip].
  - destruct (match_here p (c :: s) pos []) as [[e gs]|] eqn:Em.
    + destruct Hin as [<- | Hin].
      * apply match_here_inv in Em.
        destruct Em as [consumed [s' [gs' [Hs [-> [-> Hg]]]]]].
        exists [], consumed, s'. simpl. rewrite Nat.add_0_r. auto.
      * eapply Hshift; [apply IH | exact Hin].
    + eapply Hshift; [apply IH | exact Hin].
  - eapply Hshift; [apply IH | exact Hin].
Qed.

Lemma finditer_match (p : pattern) (text : str) (m : match_obj) :
  In m (finditer p text) -> Spec.match_of p text m.
Proof.
  intros H. apply finditer_from_match in H.
  destruct H as [before [consumed [after [-> [Hs [He Hg]]]]]].
  exists before, consumed, after. simpl in Hs. rewrite He, Hs. auto.
Qed.

End MatchShape.

(** ** Context windows *)

Section Windows.

Lemma slice_substring (s : str) (a b : nat) :
  (a <= b)%nat -> (b <= List.length s)%nat ->
  Spec.substring s (Z.of_nat a) (Z.of_nat b) (PyStr.slice s a b).
Proof.
  intros Hab Hb. unfold PyStr.slice.
  exists (firstn a s), (skipn (b - a) (skipn a s)).
  rewrite (firstn_skipn (b - a) (skipn a s)), (firstn_skipn a s).
  rewrite !length_firstn, length_skipn.
  split; [reflexivity|]. split; f_equal; lia.
Qed.

Lemma window_is_substring (p : Re.pattern) (text : str) (m : Re.match_obj) :
  Spec.match_of p text m ->
  Spec.window_of text m (Scraper.window text m).
Proof.
  intros [before [consumed [after [Ht [Hs [He _]]]]]].
  assert (Hlen : (Re.m_end m <= List.length text)%nat).
  { rewrite Ht, He, !length_app. lia. }
  assert (Hse : (Re.m_start m <= Re.m_end m)%nat) by lia.
  unfold Spec.window_of, Scraper.window.
  set (a := Z.max 0 (Z.of_nat (Re.m_start m) - 50)).
  set (b := Z.min (Z.of_nat (List.length text)) (Z.of_nat (Re.m_end m) + 50)).
  rewrite <- (Z2Nat.id a) at 1 by lia.
  rewrite <- (Z2Nat.id b) at 1 by lia.
  apply slice_substring; lia.
Qed.

Lemma lstrip_spec (s : str) :
  exists l, s = l ++ PyStr.lstrip s
            /\ Forall (fun c => PyStr.isspace c = true) l
            /\ Spec.starts_clean (PyStr.lstrip s).
Proof.
  induction s as [|c s [l [Hs [Hl Hc]]]]; simpl.
  - exists []. repeat split. constructor.
  - destruct (PyStr.isspace c) eqn:E.
    + exists (c :: l). simpl. rewrite <- Hs. repeat split; auto.
    + exists []. repeat split; [constructor | exact E].
Qed.

Lemma strip_spec (w : str) : Spec.stripped w (PyStr.strip w).
Proof.
  unfold PyStr.strip, PyStr.rstrip.
  destruct (lstrip_spec w) as [l [Hw [Hl Hc]]].
  destruct (lstrip_spec (rev (PyStr.lstrip w))) as [r [Hr [Hrs Hrc]]].
  set (t := rev (PyStr.lstrip (rev (PyStr.lstrip w)))).
  assert (Ht : PyStr.lstrip w = t ++ rev r).
  { unfold t. rewrite <- rev_app_distr, <- Hr, rev_involutive. reflexivity. }
  exists l, (rev r). repeat split.
  - rewrite <- Ht. exact Hw.
  - exact Hl.
  - apply Forall_rev. exact Hrs.
  - rewrite Ht in Hc. destruct t; [exact I | exact Hc].
  - unfold t. rewrite rev_involutive. exact Hrc.
Qed.

Lemma context_of_spec (p : Re.pattern) (text : str) (m : Re.match_obj) :
  In m (Re.finditer p text) ->
  Spec.context_for text m (Scraper.context_of text m).
Proof.
  intros H. exists (Scraper.window text m). split.
  - apply (window_is_substring (finditer_match _ _ _ H)).
  - apply strip_spec.
Qed.

End Windows.

Section Extraction.

Variable text : str.

Lemma price_pair_origin (patterns : list Re.pattern) (pair : str * Q) :
  In pair (Scraper.extract_prices_from patterns text) <->
  exists p m,
    In p patterns /\ In m (Re.finditer p text)
    /\ Scraper.price_of_match text m = Some (snd pair)
    /\ fst pair = Scraper.context_of text m.
Proof.
  unfold Scraper.extract_prices_from, Scraper.price_pairs_of.
  rewrite in_flat_map. split.
  - intros [p [Hp H]]. apply in_flat_map in H. destruct H as [m [Hm H]].
    destruct (Scraper.price_of_match text m) as [v|] eqn:E; [|contradiction].
    destruct H as [<- | []]. exists p, m. auto.
  - intros [p [m [Hp [Hm [Hv Hc]]]]]. exists p. split; [exact Hp|].
    apply in_flat_map. exists m. split; [exact Hm|].
    rewrite Hv. left. destruct pair. simpl in *. congruence.
Qed.

Lemma discount_pair_origin (patterns : list Re.pattern) (pair : str * Z) :
  In pair (Scraper.extract_discounts_from patterns text) <->
  exists p m,
    In p patterns /\ In m (Re.finditer p text)
    /\ Scraper.discount_of_match m = Some (snd pair)
    /\ fst pair = Scraper.context_of text m.
Proof.
  unfold Scraper.extract_discounts_from, Scraper.discount_pairs_of.
  rewrite in_flat_map. split.
  - intros [p [Hp H]]. apply in_flat_map in H. destruct H as [m [Hm H]].
    destruct (Scraper.discount_of_match m) as [v|] eqn:E; [|contradiction].
    destruct H as [<- | []]. exists p, m. auto.
  - intros [p [m [Hp [Hm [Hv Hc]]]]]. exists p. split; [exact Hp|].
    apply in_flat_map. exists m. split; [exact Hm|].
    rewrite Hv. left. destruct pair. simpl in *. congruence.
Qed.

End Extraction.

(** The context is not the window itself: in " 5 ct" the cent pattern
    matches at offsets 1 to 5, the window runs from 0 to 5 and is the whole
    text, and the context paired with the price is "5 ct", without the
    leading blank. *)
Lemma context_differs_from_window :
  let text := PyStr.lit " 5 ct" in
  let m := Re.Match 1 5 [PyStr.lit "5"] in
  List.map (fun p => Re.finditer p text) Scraper.price_patterns = [[]; []; []; [m]]
  /\ Scraper.extract_prices_from_text text = [(PyStr.lit "5 ct", 0.05%Q)]
  /\ Spec.window_of text m text
  /\ ~ Spec.window_of text m (PyStr.lit "5 ct").
Proof.
  intros text m. split; [reflexivity|]. split; [reflexivity|]. split.
  - exists [], []. repeat split.
  - intros [pre [post [_ [H0 H5]]]].
    vm_compute in H0, H5. destruct pre; [|discriminate]. discriminate.
Qed.

(** C8 (amended).  For every price match and every discount match in the
    input text, the context paired with the extracted value is the
    substring of the text from (match-start - 50) to (match-end + 50),
    clipped to the bounds of the text, with its leading and trailing
    whitespace removed; every match whose value parses yields such a
    pair. *)
Theorem context_is_stripped_window (text : str) :
  Forall (fun pair =>
            exists p m,
              In p Scraper.price_patterns /\ In m (Re.finditer p text)
              /\ Scraper.price_of_match text m = Some (snd pair)
              /\ Spec.context_for text m (fst pair))
         (Scraper.extract_prices_from_text text)
  /\ Forall (fun pair =>
               exists p m,
                 In p Scraper.discount_patterns /\ In m (Re.finditer p text)
                 /\ Scraper.discount_of_match m = Some (snd pair)
                 /\ Spec.context_for text m (fst pair))
            (Scraper.extract_discounts_from_text text)
  /\ (forall p m price,
        In p Scraper.price_patterns -> In m (Re.finditer p text) ->
        Scraper.price_of_match text m = Some price ->
        exists ctx, In (ctx, price) (Scraper.extract_prices_from_text text)
                    /\ Spec.context_for text m ctx)
  /\ (forall p m discount,
        In p Scraper.discount_patterns -> In m (Re.finditer p text) ->
        Scraper.discount_of_match m = Some discount ->
        exists ctx, In (ctx, discount) (Scraper.extract_discounts_from_text text)
                    /\ Spec.context_for text m ctx).
Proof.
  repeat split.
  - apply Forall_forall. intros pair H.
    apply price_pair_origin in H. destruct H as [p [m [Hp [Hm [Hv Hc]]]]].
    exists p, m. rewrite Hc. repeat split; auto.
    apply (context_of_spec _ _ _ Hm).
  - apply Forall_forall. intros pair H.
    apply discount_pair_origin in H. destruct H as [p [m [Hp [Hm [Hv Hc]]]]].
    exists p, m. rewrite Hc. repeat split; auto.
    apply (context_of_spec _ _ _ Hm).
  - intros p m price Hp Hm Hv. exists (Scraper.context_of text m). split.
    + apply price_pair_origin. exists p, m. auto.
    + apply (context_of_spec _ _ _ Hm).
  - intros p m d Hp Hm Hv. exists (Scraper.context_of text m). split.
    + apply discount_pair_origin. exists p, m. auto.
    + apply (context_of_spec _ _ _ Hm).
Qed.

(** ** Extracted numbers *)

Section Numbers.

Lemma digits_val_from (s : str) : forall acc,
  0 <= acc -> 0 <= fold_left (fun a c => 10 * a + Num.digit_val c) s acc.
Proof.
  induction s as [|c s IH]; intros acc H; cbn [fold_left]; [exact H|].
  apply IH. unfold Num.digit_val.
  pose proof (N2Z.is_nonneg (c - 48)). lia.
Qed.

Lemma digits_val_nonneg (s : str) : 0 <= Num.digits_val s.
Proof. apply digits_val_from. lia. Qed.

Lemma py_int_nonneg (s : str) (d : Z) : Num.py_int s = Some d -> 0 <= d.
Proof.
  unfold Num.py_int. destruct (Num.all_digits s); [|discriminate].
  intros [= <-]. apply digits_val_nonneg.
Qed.

Lemma digit_not_dot (c : char) : Re.isdigit c = true -> (c =? 46)%N = false.
Proof.
  unfold Re.isdigit. rewrite andb_true_iff, !N.leb_le, N.eqb_neq. lia.
Qed.

Lemma split_dot_whole (g : str) :
  Forall (fun c => Re.isdigit c = true) g ->
  forall acc, Num.split_dot g acc = (rev acc ++ g, None).
Proof.
  induction 1 as [|c g Hc Hg IH]; intros acc; simpl.
  - rewrite app_nil_r. reflexivity.
  - rewrite (digit_not_dot _ Hc), IH. simpl.
    rewrite <- app_assoc. reflexivity.
Qed.

Lemma split_dot_parts (g t : str) :
  Forall (fun c => Re.isdigit c = true) g ->
  forall acc, Num.split_dot (g ++ 46%N :: t) acc = (rev acc ++ g, Some t).
Proof.
  induction 1 as [|c g Hc Hg IH]; intros acc; simpl.
  - rewrite app_nil_r. reflexivity.
  - rewrite (digit_not_dot _ Hc), IH. simpl.
    rewrite <- app_assoc. reflexivity.
Qed.

(** [float(digits) / 100] is a whole number of cents. *)
Lemma cents_of_whole (g : str) (x : Q) :
  Forall (fun c => Re.isdigit c = true) g ->
  Num.py_float g = Some x -> Spec.cents (x / 100).
Proof.
  intros Hg. unfold Num.py_float. rewrite (split_dot_whole Hg). simpl.
  destruct (Num.all_digits g); [|discriminate]. intros [= <-].
  exists (Num.digits_val g). split; [apply digits_val_nonneg | reflexivity].
Qed.

(** [float("euros.cc")] is a whole number of cents. *)
Lemma cents_of_parts (g1 g2 : str) (x : Q) :
  Forall (fun c => Re.isdigit c = true) g1 ->
  List.length g2 = 2%nat ->
  Num.py_float (g1 ++ PyStr.lit "." ++ g2) = Some x -> Spec.cents x.
Proof.
  intros Hg Hl. unfold Num.py_float.
  change (PyStr.lit ".") with [46%N]. simpl app.
  rewrite (split_dot_parts g2 Hg). simpl rev. simpl app.
  destruct (Num.all_digits g1 && Num.all_digits g2); [|discriminate].
  intros [= <-]. rewrite Hl.
  exists (100 * Num.digits_val g1 + Num.digits_val g2). split.
  - pose proof (digits_val_nonneg g1). pose proof (digits_val_nonneg g2). lia.
  - rewrite inject_Z_plus, inject_Z_mult.
    change (inject_Z (10 ^ Z.of_nat 2)) with 100%Q.
    change (inject_Z 100) with 100%Q. field.
Qed.

(** Rounding never goes below an integer the value has reached. *)
Lemma round_half_even_lower (n : Z) (y : Q) :
  (inject_Z n <= y)%Q -> n <= Num.round_half_even y.
Proof.
  unfold Qle, Num.round_half_even. simpl. intros H.
  assert (Hq : n <= Qnum y / Zpos (Qden y)).
  { apply Z.div_le_lower_bound; lia. }
  destruct (_ <? _); [exact Hq|].
  destruct (_ <? _); [lia|].
  destruct (Z.even _); lia.
Qed.

(** With a discount strictly between 0 and 100 per cent the base price
    derived from a price in whole cents is not below that price. *)
Lemma base_not_below_final (price : Q) (d : Z) :
  Spec.cents price -> 0 < d < 100 ->
  (price <= Num.round2 (price / (1 - inject_Z d / 100)))%Q.
Proof.
  intros [n [Hn Hp]] [Hd0 Hd1].
  assert (HD0 : (0 < inject_Z d)%Q)
    by (rewrite (Zlt_Qlt 0 d) in Hd0; exact Hd0).
  assert (HD1 : (inject_Z d < 100)%Q)
    by (rewrite (Zlt_Qlt d 100) in Hd1; exact Hd1).
  assert (HN : (0 <= inject_Z n)%Q)
    by (rewrite (Zle_Qle 0 n) in Hn; exact Hn).
  assert (HF0 : (0 < inject_Z d / 100)%Q)
    by (apply Qlt_shift_div_l; lra).
  assert (HF1 : (inject_Z d / 100 < 1)%Q)
    by (apply Qlt_shift_div_r; lra).
  set (t := (1 - inject_Z d / 100)%Q).
  assert (Ht0 : (0 < t)%Q) by (unfold t; lra).
  assert (Ht1 : (t <= 1)%Q) by (unfold t; lra).
  assert (Hy : (inject_Z n <= price / t * 100)%Q).
  { rewrite Hp.
    setoid_replace (inject_Z n / 100 / t * 100)%Q with (inject_Z n / t)%Q
      by (field; lra).
    apply Qle_shift_div_l; [exact Ht0|]. nra. }
  apply round_half_even_lower in Hy.
  unfold Num.round2. rewrite Hp at 1. fold t.
  unfold Qdiv at 1 3. apply Qmult_le_compat_r; [|discriminate].
  rewrite <- Zle_Qle. exact Hy.
Qed.

End Numbers.

(** ** Records of a flyer *)

Section FlyerRecords.

Lemma price_of_groups (text : str) (m : Re.match_obj) (g1 : str)
      (rest : list str) (price : Q) :
  Re.m_groups m = g1 :: rest ->
  Forall (fun c => Re.isdigit c = true) g1 ->
  match rest with
  | [] => True
  | g2 :: _ => List.length g2 = 2%nat
  end ->
  Scraper.price_of_match text m = Some price ->
  Spec.cents price.
Proof.
  intros Hg H1 H2. unfold Scraper.price_of_match, Re.group. rewrite Hg.
  simpl nth_error.
  destruct (PyStr.contains _ _).
  - destruct (Num.py_float g1) as [x|] eqn:E; [|discriminate].
    intros [= <-]. apply (cents_of_whole H1 E).
  - destruct rest as [|g2 rest]; simpl.
    + apply (cents_of_parts (PyStr.lit "00") H1). reflexivity.
    + apply (cents_of_parts g2 H1). exact H2.
Qed.

(** Every price the configured patterns extract is a whole,
    non-negative number of cents. *)
Lemma price_is_cents (text : str) (p : Re.pattern) (m : Re.match_obj)
      (price : Q) :
  In p Scraper.price_patterns -> In m (Re.finditer p text) ->
  Scraper.price_of_match text m = Some price ->
  Spec.cents price.
Proof.
  intros Hp Hm Hv. apply finditer_match in Hm.
  destruct Hm as [before [consumed [after [_ [_ [_ Hg]]]]]].
  simpl in Hp.
  destruct Hp as [<- | [<- | [<- | [<- | []]]]]; cbv [filter] in Hg;
    cbn in Hg;
    inversion Hg as [|it1 g1 its gs [Hd1 _] Hrest]; subst;
    inversion Hrest as [|it2 g2 its' gs' [_ Hl2] Hrest']; subst;
    try (inversion Hrest'; subst);
    eapply price_of_groups; eauto; exact I.
Qed.

Lemma drop_duplicates_subset (l : frame) : forall seen r,
  In r (Scraper.drop_duplicates_aux seen l) -> In r l.
Proof.
  induction l as [|x l IH]; intros seen r H; simpl in H; [exact H|].
  destruct (existsb _ seen).
  - right. apply (IH _ _ H).
  - destruct H as [<- | H]; [left; reflexivity | right; apply (IH _ _ H)].
Qed.

Variable kw : list (str * list str).
Variables retailer_ source : str.
Variable clock : nat -> Z.
Variable discounts : list (str * Z).

Lemma build_products_In (prices : list (str * Q)) : forall i rs r,
  Scraper.build_products kw retailer_ source clock discounts prices i = Ok rs ->
  In r rs ->
  exists cp j,
    In cp prices
    /\ Scraper.build_product kw retailer_ source (clock j) discounts cp = Ok r.
Proof.
  induction prices as [|cp prices IH]; intros i rs r H Hin; simpl in H.
  - injection H as <-. contradiction.
  - destruct (Scraper.build_product _ _ _ _ _ cp) as [r0|e] eqn:E0;
      simpl in H; [|discriminate].
    destruct (Scraper.build_products _ _ _ _ _ prices (S i)) as [rs0|e] eqn:E1;
      simpl in H; [|discriminate].
    injection H as <-. destruct Hin as [<- | Hin].
    + exists cp, i. split; [left; reflexivity | exact E0].
    + destruct (IH _ _ _ E1 Hin) as [cp' [j [Hcp Hb]]].
      exists cp', j. split; [right; exact Hcp | exact Hb].
Qed.

Lemma associate_nonneg (context : str) :
  Forall (fun pair => 0 <= snd pair) discounts ->
  0 <= Scraper.associate_discount context discounts.
Proof.
  induction 1 as [|[dc d] rest Hd Hrest IH]; simpl; [lia|].
  destruct (existsb _ _); [exact Hd | exact IH].
Qed.

Lemma build_product_fields (now : Z) (context : str) (price : Q)
      (r : ProductRecord) :
  Scraper.build_product kw retailer_ source now discounts (context, price) = Ok r ->
  discount_pct r = Scraper.associate_discount context discounts
  /\ is_promo r = (0 <? discount_pct r)
  /\ final_price r = price
  /\ Scraper.derive_prices price (discount_pct r) = Ok (base_price r, price).
Proof.
  unfold Scraper.build_product.
  destruct (Scraper.derive_prices price _) as [[b f]|e] eqn:E; simpl;
    [|discriminate].
  intros [= <-]. simpl.
  assert (Hf : f = price).
  { unfold Scraper.derive_prices in E. destruct (0 <? _).
    - destruct (Num.py_div _ _); simpl in E; [|discriminate]. congruence.
    - congruence. }
  subst f. auto.
Qed.

End FlyerRecords.

(** The bounds on the discount are not kept: "-150%" is read as a
    discount of 150, the record built from it is a promo record, and its
    base price, 1.00 / (1 - 1.5) = -2.00, is below its final price. *)
Lemma discount_above_100_breaks_order :
  let text := PyStr.lit "Kava 1,00 € -150%" in
  Scraper.extract_discounts_from_text text = [(text, 150)]
  /\ match Scraper.parse_flyer text (PyStr.lit "Maxima") (PyStr.lit "flyer.pdf")
                               (fun _ => 0) with
     | Ok [r] => discount_pct r = 150
                 /\ is_promo r = true
                 /\ ~ (discount_pct r <= 100)
                 /\ ~ (final_price r <= base_price r)%Q
     | _ => False
     end.
Proof.
  vm_compute. split; [reflexivity|]. repeat split; auto.
Qed.

(** C2 (amended).  For every record produced by the extraction pipeline,
    is_promo is true if and only if discount_pct > 0, and discount_pct is
    not negative; when is_promo and discount_pct < 100,
    final_price <= base_price; every extracted discount pair has
    0 <= discount_pct, and every extracted price is a whole, non-negative
    number of cents.  No upper bound on discount_pct is enforced. *)
Theorem record_invariants (text retailer_ source : str) (clock : nat -> Z) :
  Forall (fun pair => 0 <= snd pair) (Scraper.extract_discounts_from_text text)
  /\ Forall (fun pair => Spec.cents (snd pair))
            (Scraper.extract_prices_from_text text)
  /\ match Scraper.parse_flyer text retailer_ source clock with
     | Ok df =>
       Forall (fun r =>
                 is_promo r = (0 <? discount_pct r)
                 /\ 0 <= discount_pct r
                 /\ (is_promo r = true -> discount_pct r < 100 ->
                     (final_price r <= base_price r)%Q)) df
     | Raise _ => True
     end.
Proof.
  assert (Hd : Forall (fun pair => 0 <= snd pair)
                      (Scraper.extract_discounts_from_text text)).
  { apply Forall_forall. intros pair H.
    apply discount_pair_origin in H. destruct H as [p [m [_ [_ [Hv _]]]]].
    unfold Scraper.discount_of_match in Hv.
    destruct (Re.group m 1); [|discriminate].
    eapply py_int_nonneg; eassumption. }
  assert (Hp : Forall (fun pair => Spec.cents (snd pair))
                      (Scraper.extract_prices_from_text text)).
  { apply Forall_forall. intros pair H.
    apply price_pair_origin in H. destruct H as [p [m [Hin [Hm [Hv _]]]]].
    eapply price_is_cents; eassumption. }
  split; [exact Hd|]. split; [exact Hp|].
  unfold Scraper.parse_flyer. destruct (PyStr.strip text); [constructor|].
  destruct (Scraper.build_products _ _ _ _ _ _ _) as [products|e] eqn:E;
    simpl; [|exact I].
  apply Forall_forall. intros r Hr.
  apply drop_duplicates_subset in Hr.
  destruct (@build_products_In _ _ _ _ _ _ _ _ _ E Hr)
    as [[ctx price] [j [Hcp Hb]]].
  apply build_product_fields in Hb. destruct Hb as [Ha [Hpromo [Hf Hder]]].
  rewrite Forall_forall in Hp. specialize (Hp _ Hcp). simpl in Hp.
  split; [exact Hpromo|]. split.
  - rewrite Ha. apply associate_nonneg. exact Hd.
  - intros Hyes Hlt. rewrite Hpromo in Hyes.
    rewrite derive_prices_defined, Hyes in Hder by lia.
    injection Hder as Hbase. rewrite Hf, <- Hbase.
    apply Z.ltb_lt in Hyes.
    apply base_not_below_final; [exact Hp | lia].
Qed.


(** * Further properties of the code *)

(** ** Deduplication *)

Section Dedup.

Lemma dedup_fresh (l : frame) : forall seen,
  Forall (fun x => existsb (Scraper.same_key x) seen = false)
         (Scraper.drop_duplicates_aux seen l)
  /\ Spec.distinct_keys (Scraper.drop_duplicates_aux seen l).
Proof.
  induction l as [|r l IH]; intros seen; simpl.
  - split; [constructor | exact I].
  - destruct (existsb (Scraper.same_key r) seen) eqn:E; [apply IH|].
    destruct (IH (r :: seen)) as [Hf Hd]. simpl. repeat split.
    + constructor; [exact E|].
      eapply Forall_impl; [|exact Hf]. intros x Hx. simpl in Hx.
      apply orb_false_iff in Hx. tauto.
    + eapply Forall_impl; [|exact Hf]. intros x Hx. simpl in Hx.
      apply orb_false_iff in Hx. tauto.
    + exact Hd.
Qed.

Lemma dedup_fixed (l : frame) : forall seen,
  Forall (fun x => existsb (Scraper.same_key x) seen = false) l ->
  Spec.distinct_keys l ->
  Scraper.drop_duplicates_aux seen l = l.
Proof.
  induction l as [|r l IH]; intros seen Hf Hd; simpl; [reflexivity|].
  inversion Hf as [|? ? Hr Hl]; subst. destruct Hd as [Hrl Hd].
  rewrite Hr. f_equal. apply IH; [|exact Hd].
  rewrite Forall_forall in Hl, Hrl |- *. intros x Hx. simpl.
  rewrite (Hrl x Hx), (Hl x Hx). reflexivity.
Qed.

Lemma dedup_subseq (l : frame) : forall seen,
  Spec.subseq (Scraper.drop_duplicates_aux seen l) l.
Proof.
  induction l as [|r l IH]; intros seen; simpl; [constructor|].
  destruct (existsb _ seen); constructor; apply IH.
Qed.

Lemma dedup_covers (l : frame) : forall seen r,
  In r l ->
  existsb (Scraper.same_key r) seen = true
  \/ existsb (Scraper.same_key r) (Scraper.drop_duplicates_aux seen l) = true.
Proof.
  induction l as [|x l IH]; intros seen r Hin; [contradiction|]. simpl.
  destruct Hin as [-> | Hin].
  - destruct (existsb (Scraper.same_key r) seen) eqn:E; [left; reflexivity|].
    right. simpl.
    assert (Hrr : Scraper.same_key r r = true).
    { unfold Scraper.same_key. rewrite eqb_refl. simpl.
      apply Qeq_bool_iff. reflexivity. }
    rewrite Hrr. reflexivity.
  - destruct (existsb (Scraper.same_key x) seen) eqn:E.
    + apply IH. exact Hin.
    + destruct (IH (x :: seen) r Hin) as [H | H].
      * simpl in H. apply orb_true_iff in H. destruct H as [H | H].
        -- right. simpl. rewrite H. reflexivity.
        -- left. exact H.
      * right. simpl. rewrite H. apply orb_true_r.
Qed.

End Dedup.

(** X1.  Deduplication is idempotent: applying [drop_duplicates] to its
    own output changes nothing. *)
Theorem drop_duplicates_idempotent (l : frame) :
  Scraper.drop_duplicates (Scraper.drop_duplicates l)
  = Scraper.drop_duplicates l.
Proof.
  unfold Scraper.drop_duplicates.
  destruct (dedup_fresh l []) as [_ Hd].
  apply dedup_fixed; [|exact Hd].
  apply Forall_forall. intros x _. reflexivity.
Qed.

(** X2.  [drop_duplicates] keeps rows in their order, keeps no two rows
    with the same product name and final price, and keeps for every row
    of the input a row with that name and price. *)
Theorem drop_duplicates_keeps_one_per_key (l : frame) :
  Spec.subseq (Scraper.drop_duplicates l) l
  /\ Spec.distinct_keys (Scraper.drop_duplicates l)
  /\ Forall (fun r => existsb (Scraper.same_key r) (Scraper.drop_duplicates l)
                      = true) l.
Proof.
  unfold Scraper.drop_duplicates. split; [apply dedup_subseq|].
  split; [apply (dedup_fresh l [])|].
  apply Forall_forall. intros r Hr.
  destruct (dedup_covers l [] r Hr) as [H | H]; [discriminate | exact H].
Qed.

(** ** What a match is made of *)

Section MatchChunks.

Import Re.

(** A successful match splits the text it consumed into one chunk per
    item of the pattern. *)
Lemma match_here_chunks (p : pattern) : forall s pos caps e gs,
  match_here p s pos caps = Some (e, gs) ->
  exists chunks s',
    s = concat chunks ++ s'
    /\ Forall2 Spec.group_shape p chunks
    /\ e = (pos + List.length (concat chunks))%nat
    /\ gs = rev caps ++ Spec.captured p chunks.
Proof.
  induction p as [|it p IH]; intros s pos caps e gs H.
  - injection H as <- <-. exists [], s. simpl.
    rewrite Nat.add_0_r, app_nil_r. repeat split. constructor.
  - assert (Hstep : forall taken s1,
               Spec.group_shape it taken ->
               match_here p s1 (pos + List.length taken)%nat
                 (if i_capture it then taken :: caps else caps) = Some (e, gs) ->
               exists chunks s',
                 taken ++ s1 = concat chunks ++ s'
                 /\ Forall2 Spec.group_shape (it :: p) chunks
                 /\ e = (pos + List.length (concat chunks))%nat
                 /\ gs = rev caps ++ Spec.captured (it :: p) chunks).
    { intros taken s1 Hshape Hm.
      destruct (IH _ _ _ _ _ Hm) as [chunks [s' [-> [Hg [-> ->]]]]].
      exists (taken :: chunks), s'. simpl.
      rewrite length_app, Nat.add_assoc, <- app_assoc.
      repeat split; [constructor; assumption|].
      destruct (i_capture it); [|reflexivity].
      simpl. rewrite <- app_assoc. reflexivity. }
    cbn [match_here] in H.
    destruct (i_quant it) eqn:Eq.
    + apply exactly_inv in H.
      destruct H as [taken [s1 [-> [Hf [Hl Hk]]]]].
      apply Hstep; [|exact Hk]. split; [exact Hf | rewrite Eq; exact Hl].
    + apply exactly_inv in H.
      destruct H as [taken [s1 [-> [Hf [Hl Hk]]]]].
      apply Hstep; [|exact Hk]. split; [exact Hf | rewrite Eq; exact Hl].
    + destruct s as [|c s]; [discriminate|].
      destruct (cls_matches (i_cls it) c) eqn:Ec; [|discriminate].
      apply greedy_inv in H.
      destruct H as [taken [s1 [-> [Hf Hk]]]].
      apply (Hstep (c :: taken) s1).
      * split; [constructor; assumption | rewrite Eq; simpl; lia].
      * simpl in Hk |- *. rewrite Nat.add_succ_r. exact Hk.
    + apply greedy_inv in H.
      destruct H as [taken [s1 [-> [Hf Hk]]]].
      apply Hstep; [|exact Hk]. split; [exact Hf | rewrite Eq; exact I].
    + apply lazy_inv in H.
      destruct H as [taken [s1 [-> [Hf Hk]]]].
      apply Hstep; [|exact Hk]. split; [exact Hf | rewrite Eq; exact I].
Qed.

Lemma finditer_from_parsed (p : pattern) (m : match_obj) :
  forall s pos skip,
    In m (finditer_from p s pos skip) ->
    exists before chunks after,
      s = before ++ concat chunks ++ after
      /\ Forall2 Spec.group_shape p chunks
      /\ m_start m = (pos + List.length before)%nat
      /\ m_end m = (m_start m + List.length (concat chunks))%nat
      /\ m_groups m = Spec.captured p chunks.
Proof.
  induction s as [|c s IH]; intros pos skip Hin; simpl in Hin; [contradiction|].
  assert (Hshift : forall skip',
             In m (finditer_from p s (S pos) skip') ->
             exists before chunks after,
               c :: s = before ++ concat chunks ++ after
               /\ Forall2 Spec.group_shape p chunks
               /\ m_start m = (pos + List.length before)%nat
               /\ m_end m = (m_start m + List.length (concat chunks))%nat
               /\ m_groups m = Spec.captured p chunks).
  { intros skip' H. destruct (IH _ _ H)
      as [before [chunks [after [-> [Hg [Hs [He Hc]]]]]]].
    exists (c :: before), chunks, after. simpl.
    rewrite Nat.add_succ_r. auto. }
  destruct skip as [|skip]; [|apply (Hshift _ Hin)].
  destruct (match_here p (c :: s) pos []) as [[e gs]|] eqn:Em;
    [|apply (Hshift _ Hin)].
  destruct Hin as [<- | Hin]; [|apply (Hshift _ Hin)].
  apply match_here_chunks in Em.
  destruct Em as [chunks [s' [Hs [Hg [-> ->]]]]].
  exists [], chunks, s'. simpl. rewrite Nat.add_0_r. auto.
Qed.

Lemma finditer_parsed (p : pattern) (text : str) (m : match_obj) :
  In m (finditer p text) -> Spec.parsed_as p text m.
Proof.
  intros H. apply finditer_from_parsed in H.
  destruct H as [before [chunks [after [-> [Hg [Hs [He Hc]]]]]]].
  exists before, chunks, after. simpl in Hs. rewrite He, Hs. auto.
Qed.

(** A pattern with a [(\d+)] group only matches text that holds a digit. *)
Lemma digits_chunk (p : pattern) (chunks : list str) :
  Forall2 Spec.group_shape p chunks -> In digits1 p ->
  exists c, In c (concat chunks) /\ isdigit c = true.
Proof.
  induction 1 as [|it chunk p chunks Hs Hrest IH]; intros Hin; [contradiction|].
  destruct Hin as [-> | Hin].
  - destruct Hs as [Hf Hl]. simpl in Hl.
    destruct chunk as [|c chunk]; [simpl in Hl; lia|].
    inversion Hf; subst. exists c. split; [left; reflexivity | assumption].
  - destruct (IH Hin) as [c [Hc Hd]]. exists c. split; [|exact Hd].
    simpl. apply in_or_app. right. exact Hc.
Qed.

End MatchChunks.

(** ** What the extractors find *)

Section Found.

Lemma price_patterns_need_digit :
  Forall (fun p => In Re.digits1 p) Scraper.price_patterns.
Proof. repeat constructor; vm_compute; tauto. Qed.

Lemma discount_patterns_need_digit :
  Forall (fun p => In Re.digits1 p) Scraper.discount_patterns.
Proof. repeat constructor; vm_compute; tauto. Qed.

Lemma match_holds_digit (p : Re.pattern) (text : str) (m : Re.match_obj) :
  In Re.digits1 p -> In m (Re.finditer p text) ->
  exists i c, nth_error text i = Some c
              /\ (Re.m_start m <= i < Re.m_end m)%nat
              /\ Re.isdigit c = true.
Proof.
  intros Hp Hm. apply finditer_parsed in Hm.
  destruct Hm as [before [chunks [after [-> [Hg [Hs [He _]]]]]]].
  destruct (digits_chunk Hg Hp) as [c [Hc Hd]].
  apply In_nth_error in Hc. destruct Hc as [j Hj].
  assert (Hlt : (j < List.length (concat chunks))%nat).
  { apply nth_error_Some. congruence. }
  exists (List.length before + j)%nat, c. repeat split; try lia; [|exact Hd].
  rewrite nth_error_app2 by lia.
  replace (List.length before + j - List.length before)%nat with j by lia.
  rewrite nth_error_app1 by exact Hlt. exact Hj.
Qed.



End Found.



Unset Implicit Arguments.

Section NoMatchDropped.

Lemma all_digits_true (g : str) :
  Forall (fun c => Re.isdigit c = true) g -> (1 <= List.length g)%nat ->
  Num.all_digits g = true.
Proof.
  intros Hf Hl. destruct g as [|c g]; [simpl in Hl; lia|].
  unfold Num.all_digits. apply forallb_forall.
  rewrite Forall_forall in Hf. exact Hf.
Qed.

Lemma py_float_whole (g : str) :
  Forall (fun c => Re.isdigit c = true) g -> (1 <= List.length g)%nat ->
  Num.py_float g = Some (inject_Z (Num.digits_val g)).
Proof.
  intros Hf Hl. unfold Num.py_float. rewrite (split_dot_whole Hf). simpl.
  rewrite (all_digits_true g Hf Hl). reflexivity.
Qed.

Lemma py_float_parts (g1 g2 : str) :
  Forall (fun c => Re.isdigit c = true) g1 -> (1 <= List.length g1)%nat ->
  Forall (fun c => Re.isdigit c = true) g2 -> (1 <= List.length g2)%nat ->
  exists x, Num.py_float (g1 ++ PyStr.lit "." ++ g2) = Some x.
Proof.
  intros Hf1 Hl1 Hf2 Hl2. unfold Num.py_float.
  change (PyStr.lit ".") with [46%N]. simpl app.
  rewrite (split_dot_parts g2 Hf1). simpl rev. simpl app.
  rewrite (all_digits_true g1 Hf1 Hl1), (all_digits_true g2 Hf2 Hl2).
  eexists. reflexivity.
Qed.

Lemma price_of_groups_some (text : str) (m : Re.match_obj) (g1 : str)
      (rest : list str) :
  Re.m_groups m = g1 :: rest ->
  Forall (fun c => Re.isdigit c = true) g1 -> (1 <= List.length g1)%nat ->
  match rest with
  | [] => True
  | g2 :: _ => Forall (fun c => Re.isdigit c = true) g2
               /\ List.length g2 = 2%nat
  end ->
  exists price, Scraper.price_of_match text m = Some price.
Proof.
  intros Hg H1 Hl1 H2. unfold Scraper.price_of_match, Re.group. rewrite Hg.
  simpl nth_error.
  destruct (PyStr.contains _ _).
  - rewrite (py_float_whole g1 H1 Hl1). eexists. reflexivity.
  - destruct rest as [|g2 rest]; simpl.
    + apply (py_float_parts g1 (PyStr.lit "00") H1 Hl1);
        [repeat constructor | simpl; lia].
    + destruct H2 as [Hf2 Hl2]. apply (py_float_parts g1 g2 H1 Hl1 Hf2). lia.
Qed.

Lemma price_match_parses (text : str) (p : Re.pattern) (m : Re.match_obj) :
  In p Scraper.price_patterns -> In m (Re.finditer p text) ->
  exists price, Scraper.price_of_match text m = Some price.
Proof.
  intros Hp Hm. apply finditer_match in Hm.
  destruct Hm as [before [consumed [after [_ [_ [_ Hg]]]]]].
  simpl in Hp.
  destruct Hp as [<- | [<- | [<- | [<- | []]]]]; cbv [filter] in Hg;
    cbn in Hg;
    inversion Hg as [|it1 g1 its gs [Hd1 Hl1] Hrest]; subst;
    inversion Hrest as [|it2 g2 its' gs' [Hd2 Hl2] Hrest']; subst;
    try (inversion Hrest'; subst);
    eapply price_of_groups_some; eauto; simpl; auto.
Qed.

Lemma flat_map_singletons {A B} (f : A -> list B) (l : list A) :
  Forall (fun x => List.length (f x) = 1%nat) l ->
  List.length (flat_map f l) = List.length l.
Proof.
  induction 1 as [|x l Hx Hl IH]; simpl; [reflexivity|].
  rewrite length_app, Hx, IH. reflexivity.
Qed.

Lemma flat_map_length_eq {A B C} (f : A -> list B) (g : A -> list C)
      (l : list A) :
  Forall (fun x => List.length (f x) = List.length (g x)) l ->
  List.length (flat_map f l) = List.length (flat_map g l).
Proof.
  induction 1 as [|x l Hx Hl IH]; simpl; [reflexivity|].
  rewrite !length_app, Hx, IH. reflexivity.
Qed.

End NoMatchDropped.

(** X4.  The price extractor drops no match of the configured patterns:
    the numeric groups of a match always parse, so the [except] branch is
    never taken and the result holds exactly one pair per match of every
    pattern. *)
Theorem every_price_match_yields_a_pair (text : str) :
  (forall p m, In p Scraper.price_patterns -> In m (Re.finditer p text) ->
               exists price,
                 In (Scraper.context_of text m, price)
                    (Scraper.extract_prices_from_text text))
  /\ List.length (Scraper.extract_prices_from_text text)
     = List.length (flat_map (fun p => Re.finditer p text) Scraper.price_patterns).
Proof.
  split.
  - intros p m Hp Hm. destruct (price_match_parses text p m Hp Hm) as [price Hv].
    exists price. apply price_pair_origin. exists p, m. auto.
  - apply flat_map_length_eq. apply Forall_forall. intros p Hp.
    unfold Scraper.price_pairs_of. apply flat_map_singletons.
    apply Forall_forall. intros m Hm.
    destruct (price_match_parses text p m Hp Hm) as [price Hv].
    rewrite Hv. reflexivity.
Qed.

(** ** Records and failures of a flyer *)

Section FlyerOutcome.

Variable kw : list (str * list str).
Variables retailer_ source : str.
Variable clock : nat -> Z.
Variable discounts : list (str * Z).

Lemma derive_prices_outcome (price : Q) (d : Z) :
  (d = 100 /\ Scraper.derive_prices price d = Raise ZeroDivisionError)
  \/ (d <> 100 /\ exists base, Scraper.derive_prices price d = Ok (base, price)).
Proof.
  destruct (Z.eq_dec d 100) as [-> | Hd].
  - left. split; [reflexivity|]. unfold Scraper.derive_prices. simpl Z.ltb.
    cbv iota. rewrite py_div_full_discount. reflexivity.
  - right. split; [exact Hd|]. rewrite (derive_prices_defined price Hd).
    eexists. reflexivity.
Qed.

Lemma build_product_outcome (now : Z) (context : str) (price : Q) :
  let d := Scraper.associate_discount context discounts in
  (d = 100
   /\ Scraper.build_product kw retailer_ source now discounts (context, price)
      = Raise ZeroDivisionError)
  \/ (d <> 100
      /\ exists r,
           Scraper.build_product kw retailer_ source now discounts
                                 (context, price) = Ok r
           /\ retailer r = retailer_ /\ source_file r = source
           /\ parsed_date r = now
           /\ product_name r = Scraper.product_name_of context
           /\ category r
              = Scraper.category_or_kita (Scraper.categorize_with kw context)
           /\ discount_pct r = d
           /\ (is_promo r = false -> base_price r = final_price r)).
Proof.
  intros d. unfold Scraper.build_product. fold d.
  destruct (derive_prices_outcome price d) as [[Hd E] | [Hd [base E]]].
  - left. rewrite E. auto.
  - right. split; [exact Hd|]. rewrite E. simpl. eexists.
    repeat split. simpl. intros Hp.
    unfold Scraper.derive_prices in E. rewrite Hp in E. congruence.
Qed.


Lemma associate_origin (context : str) :
  Scraper.associate_discount context discounts = 0
  \/ In (Scraper.associate_discount context discounts) (List.map snd discounts).
Proof.
  induction discounts as [|[dc d] rest IH]; simpl; [left; reflexivity|].
  destruct (existsb _ _); [right; left; reflexivity|].
  destruct IH as [H | H]; [left; exact H | right; right; exact H].
Qed.

Lemma category_label (context : str) :
  In (Scraper.category_or_kita (Scraper.categorize_with kw context))
     (PyStr.lit "Kita" :: List.map fst kw).
Proof.
  pose proof (categorize_first context kw) as H.
  destruct (Scraper.categorize_with kw context) as [[|x c]|]; simpl;
    try (left; reflexivity).
  right. apply (first_category_label H).
Qed.

End FlyerOutcome.

Lemma subseq_length {A} (l1 l2 : list A) :
  Spec.subseq l1 l2 -> (List.length l1 <= List.length l2)%nat.
Proof. induction 1; simpl; lia. Qed.

Lemma subseq_In {A} (l1 l2 : list A) (x : A) :
  Spec.subseq l1 l2 -> In x l1 -> In x l2.
Proof.
  induction 1 as [|y l1 l2 H IH|y l1 l2 H IH]; simpl; intros Hin; auto.
  destruct Hin; auto.
Qed.


(** X6.  Every row of a parsed flyer carries the retailer and the source
    file it was parsed for, a category that is one of the configured
    labels or 'Kita', a final price that is one of the extracted prices
    and a discount that is 0 or one of the extracted discounts; a row
    that is not a promo has equal base and final price. *)
Theorem flyer_rows_are_traceable (text retailer_ source : str)
        (clock : nat -> Z) :
  match Scraper.parse_flyer text retailer_ source clock with
  | Ok df =>
    Forall (fun r =>
              retailer r = retailer_
              /\ source_file r = source
              /\ In (category r)
                    (PyStr.lit "Kita" :: List.map fst Scraper.category_keywords)
              /\ In (final_price r)
                    (List.map snd (Scraper.extract_prices_from_text text))
              /\ (discount_pct r = 0
                  \/ In (discount_pct r)
                        (List.map snd (Scraper.extract_discounts_from_text text)))
              /\ (is_promo r = false -> base_price r = final_price r)) df
  | Raise _ => True
  end.
Proof.
  unfold Scraper.parse_flyer. destruct (PyStr.strip text); [constructor|].
  destruct (Scraper.build_products _ _ _ _ _ _ _) as [products|e] eqn:E;
    simpl; [|exact I].
  apply Forall_forall. intros r Hr.
  apply drop_duplicates_subset in Hr.
  destruct (@build_products_In _ _ _ _ _ _ _ _ _ E Hr)
    as [[ctx price] [j [Hcp Hb]]].
  pose proof (build_product_fields _ _ _ _ _ _ _ Hb) as [_ [_ [Hf _]]].
  destruct (build_product_outcome Scraper.category_keywords retailer_ source
              (Scraper.extract_discounts_from_text text) (clock j) ctx price)
    as [[_ E1] | [_ [r' [E1 [H1 [H2 [_ [_ [H5 [H6 H7]]]]]]]]]];
    rewrite E1 in Hb; [discriminate|].
  injection Hb as <-.
  split; [exact H1|]. split; [exact H2|]. split.
  - rewrite H5. apply category_label.
  - split.
    + rewrite Hf. apply in_map_iff. exists (ctx, price). auto.
    + split; [|exact H7]. rewrite H6. apply associate_origin.
Qed.

(** ** Product names *)

Section Names.

Lemma digit_not_space (c : char) :
  Re.isdigit c = true -> PyStr.isspace c = false.
Proof.
  unfold Re.isdigit. rewrite andb_true_iff, !N.leb_le. intros [H1 H2].
  assert (H : (c = 48 \/ c = 49 \/ c = 50 \/ c = 51 \/ c = 52 \/ c = 53
               \/ c = 54 \/ c = 55 \/ c = 56 \/ c = 57)%N)
    by (unfold char, PyStr.char in *; lia).
  repeat (destruct H as [-> | H]; [reflexivity|]). subst c. reflexivity.
Qed.

Lemma slice_holds (s : str) (a b i : nat) (c : char) :
  (a <= i)%nat -> (i < b)%nat -> nth_error s i = Some c ->
  In c (PyStr.slice s a b).
Proof.
  intros Ha Hb Hi. unfold PyStr.slice.
  apply (nth_error_In _ (i - a)).
  rewrite nth_error_firstn.
  replace (i - a <? b - a)%nat with true
    by (symmetry; apply Nat.ltb_lt; lia).
  rewrite nth_error_skipn. replace (a + (i - a))%nat with i by lia. exact Hi.
Qed.

Lemma window_holds_match (text : str) (m : Re.match_obj) (i : nat) (c : char) :
  (Re.m_start m <= i < Re.m_end m)%nat -> nth_error text i = Some c ->
  In c (Scraper.window text m).
Proof.
  intros [H1 H2] Hi. unfold Scraper.window.
  assert (Hlt : (i < List.length text)%nat)
    by (apply nth_error_Some; congruence).
  apply slice_holds with (i := i); [lia | lia | exact Hi].
Qed.

Lemma strip_keeps (w : str) (c : char) :
  In c w -> PyStr.isspace c = false -> In c (PyStr.strip w).
Proof.
  intros Hin Hc. destruct (strip_spec w) as [l [r [Hw [Hl [Hr _]]]]].
  rewrite Hw in Hin. rewrite Forall_forall in Hl, Hr.
  apply in_app_or in Hin. destruct Hin as [Hin | Hin].
  - rewrite (Hl c Hin) in Hc. discriminate.
  - apply in_app_or in Hin. destruct Hin as [Hin | Hin]; [exact Hin|].
    rewrite (Hr c Hin) in Hc. discriminate.
Qed.

Lemma split_aux_words (s : str) : forall cur,
  Forall (fun w => w <> []) (PyStr.split_aux s cur).
Proof.
  assert (Hrev : forall x (cur : str), rev (x :: cur) <> []).
  { intros x cur H. apply (f_equal (@List.length _)) in H.
    rewrite length_rev in H. discriminate. }
  induction s as [|c s IH]; intros cur; simpl.
  - destruct cur; repeat constructor. apply Hrev.
  - destruct (PyStr.isspace c); [|apply IH].
    destruct cur; [apply IH|]. constructor; [apply Hrev | apply IH].
Qed.

Lemma split_aux_nonempty (s : str) : forall cur,
  cur <> [] \/ (exists c, In c s /\ PyStr.isspace c = false) ->
  PyStr.split_aux s cur <> [].
Proof.
  induction s as [|c s IH]; intros cur H; simpl.
  - destruct H as [H | [c [[] _]]]. destruct cur; [congruence | discriminate].
  - destruct (PyStr.isspace c) eqn:E.
    + destruct cur; [|discriminate]. apply IH. right.
      destruct H as [H | [x [[<- | Hx] Hs]]]; [congruence | congruence |].
      exists x. auto.
    + apply IH. left. discriminate.
Qed.

Lemma join_nonempty (sep : str) (ws : list str) :
  ws <> [] -> Forall (fun w => w <> []) ws -> PyStr.join sep ws <> [].
Proof.
  intros Hne Hf. destruct ws as [|w ws]; [congruence|].
  inversion Hf; subst. destruct w as [|x w]; [congruence|].
  simpl. destruct ws; discriminate.
Qed.

Lemma Forall_firstn {A} (P : A -> Prop) (n : nat) (l : list A) :
  Forall P l -> Forall P (firstn n l).
Proof.
  intros H. rewrite <- (firstn_skipn n l) in H.
  apply Forall_app in H. tauto.
Qed.

(** A context that holds a character other than whitespace gives a name
    made of its first words, not the placeholder. *)
Lemma product_name_of_words (context : str) (c : char) :
  In c context -> PyStr.isspace c = false ->
  PyStr.split context <> []
  /\ Scraper.product_name_of context
     = PyStr.join (PyStr.lit " ") (firstn 5 (PyStr.split context))
  /\ Scraper.product_name_of context <> [].
Proof.
  intros Hin Hc.
  assert (Hne : PyStr.split context <> []).
  { apply split_aux_nonempty. right. exists c. auto. }
  pose proof (split_aux_words context []) as Hw.
  fold (PyStr.split context) in Hw.
  assert (Hname : Scraper.product_name_of context
                  = PyStr.join (PyStr.lit " ") (firstn 5 (PyStr.split context))).
  { unfold Scraper.product_name_of.
    destruct (PyStr.split context); [congruence | reflexivity]. }
  split; [exact Hne|]. split; [exact Hname|].
  rewrite Hname. apply join_nonempty; [|apply Forall_firstn; exact Hw].
  destruct (PyStr.split context); [congruence | discriminate].
Qed.

End Names.

(** X7.  Every row of a parsed flyer has a non-empty product name, made
    of the first (at most five) words of the context of one of the
    extracted prices: a context always holds the digits of its match, so
    the placeholder "Unknown Product" is never needed. *)
Theorem flyer_rows_are_named (text retailer_ source : str) (clock : nat -> Z) :
  match Scraper.parse_flyer text retailer_ source clock with
  | Ok df =>
    Forall (fun r =>
              product_name r <> []
              /\ exists context,
                   In context
                      (List.map fst (Scraper.extract_prices_from_text text))
                   /\ PyStr.split context <> []
                   /\ product_name r
                      = PyStr.join (PyStr.lit " ")
                                   (firstn 5 (PyStr.split context))) df
  | Raise _ => True
  end.
Proof.
  unfold Scraper.parse_flyer. destruct (PyStr.strip text); [constructor|].
  destruct (Scraper.build_products _ _ _ _ _ _ _) as [products|e] eqn:E;
    simpl; [|exact I].
  apply Forall_forall. intros r Hr.
  apply drop_duplicates_subset in Hr.
  destruct (@build_products_In _ _ _ _ _ _ _ _ _ E Hr)
    as [[ctx price] [j [Hcp Hb]]].
  destruct (build_product_outcome Scraper.category_keywords retailer_ source
              (Scraper.extract_discounts_from_text text) (clock j) ctx price)
    as [[_ E1] | [_ [r' [E1 [_ [_ [_ [Hn _]]]]]]]];
    rewrite E1 in Hb; [discriminate|].
  injection Hb as <-.
  pose proof Hcp as Ho. apply price_pair_origin in Ho.
  destruct Ho as [p [m [Hp [Hm [_ Hc]]]]]. simpl in Hc.
  assert (Hd : In Re.digits1 p).
  { pose proof price_patterns_need_digit as H.
    rewrite Forall_forall in H. apply H. exact Hp. }
  destruct (match_holds_digit _ _ _ Hd Hm) as [i [ch [Hi [Hrange Hdig]]]].
  assert (Hin : In ch ctx).
  { rewrite Hc. apply strip_keeps; [|apply digit_not_space; exact Hdig].
    apply (window_holds_match text m i ch Hrange Hi). }
  destruct (product_name_of_words ctx ch Hin (digit_not_space ch Hdig))
    as [Hs [Hj Hne]].
  rewrite Hn. split; [exact Hne|].
  exists ctx. split; [|split; assumption].
  apply in_map_iff. exists (ctx, price). auto.
Qed.

(** ** Flyer links *)

Section Links.

Lemma base_urls_are_http :
  Forall (fun entry =>
            exists rest, Scraper.base_url (snd entry) = PyStr.lit "http" ++ rest)
         Scraper.retailer_configs.
Proof. repeat constructor; eexists; vm_compute; reflexivity. Qed.

Lemma config_of_configured (retailer_ : str) (config : Scraper.RetailerConfig) :
  Scraper.config_of retailer_ = Some config ->
  In (retailer_, config) Scraper.retailer_configs.
Proof.
  unfold Scraper.config_of.
  destruct (find _ Scraper.retailer_configs) as [[name c]|] eqn:E;
    [|discriminate].
  intros [= <-]. apply find_some in E. destruct E as [Hin He].
  simpl in He. apply eqb_eq in He. subst name. exact Hin.
Qed.

Lemma absolute_url_is_http (config : Scraper.RetailerConfig) (link : str) :
  (exists rest, Scraper.base_url config = PyStr.lit "http" ++ rest) ->
  PyStr.startswith (PyStr.lit "http") (Scraper.absolute_url config link) = true.
Proof.
  intros [rest Hb]. unfold Scraper.absolute_url.
  destruct (PyStr.startswith (PyStr.lit "http") link) eqn:E; [exact E|].
  destruct (PyStr.startswith (PyStr.lit "/") link);
    apply startswith_spec; rewrite Hb, <- app_assoc; eexists; reflexivity.
Qed.

End Links.

(** X8.  [find_flyer_urls] returns nothing for a retailer that is not
    configured or when the page could not be fetched; for a configured
    retailer it returns one URL per link found, every one of them
    starting with "http", and a link that already starts with "http" is
    returned as it is. *)
Theorem flyer_urls_are_absolute (retailer_ : str) (fetched : option (list str)) :
  let urls := Scraper.find_flyer_urls retailer_ fetched in
  Forall (fun url => PyStr.startswith (PyStr.lit "http") url = true) urls
  /\ (Scraper.config_of retailer_ = None \/ fetched = None -> urls = [])
  /\ (forall links,
        Scraper.config_of retailer_ <> None -> fetched = Some links ->
        List.length urls = List.length links
        /\ forall link,
             In link links ->
             PyStr.startswith (PyStr.lit "http") link = true ->
             In link urls).
Proof.
  cbv zeta. unfold Scraper.find_flyer_urls.
  destruct (Scraper.config_of retailer_) as [config|] eqn:Ec.
  - assert (Hb : exists rest,
               Scraper.base_url config = PyStr.lit "http" ++ rest).
    { apply config_of_configured in Ec.
      pose proof base_urls_are_http as H. rewrite Forall_forall in H.
      apply (H _ Ec). }
    destruct fetched as [links|].
    + split; [|split].
      * apply Forall_forall. intros url Hu. apply in_map_iff in Hu.
        destruct Hu as [link [<- _]].
        apply (absolute_url_is_http config link Hb).
      * intros [H | H]; discriminate.
      * intros links' _ [= <-]. split; [apply length_map|].
        intros link Hin Hs. apply in_map_iff. exists link. split; [|exact Hin].
        unfold Scraper.absolute_url. rewrite Hs. reflexivity.
    + split; [constructor|]. split; [reflexivity|].
      intros links _ H. discriminate.
  - split; [constructor|]. split; [reflexivity|].
    intros links H. congruence.
Qed.

(** ** Loading flyers *)

(** X9.  [load_manual_flyer] appends: the collection afterwards holds the
    rows it held before followed by the parsed rows, two loads in a row
    amount to one load of the concatenation, and the analyzer still has
    no data exactly when nothing was held and nothing was parsed. *)
Theorem load_manual_flyer_appends (pp : Analyzer.store) (a b : frame) :
  Spec.rows (fst (Analyzer.load_manual_flyer pp a)) = Spec.rows pp ++ a
  /\ fst (Analyzer.load_manual_flyer (fst (Analyzer.load_manual_flyer pp a)) b)
     = fst (Analyzer.load_manual_flyer pp (a ++ b))
  /\ (Analyzer.loaded (fst (Analyzer.load_manual_flyer pp a))
      = Raise Analyzer.no_data
      <-> Spec.rows pp ++ a = [])
  /\ (Spec.rows pp ++ a <> [] ->
      Analyzer.loaded (fst (Analyzer.load_manual_flyer pp a))
      = Ok (Spec.rows pp ++ a)).
Proof.
  destruct pp as [df|]; simpl.
  - split; [reflexivity|]. split; [rewrite app_assoc; reflexivity|].
    destruct (df ++ a) as [|r l]; split.
    + tauto.
    + congruence.
    + split; [discriminate | discriminate].
    + reflexivity.
  - split; [reflexivity|]. split; [reflexivity|].
    destruct a as [|r l]; split.
    + tauto.
    + congruence.
    + split; [discriminate | discriminate].
    + reflexivity.
Qed.

(** ** More on the deal ranking *)


(** ** More on the cart *)

Section CartFacts.

Variable df : frame.
Variable budget : option Q.

(** The item [add_product] appends is the row under its cart names. *)
Lemma add_product_cases (c : str) (st : Analyzer.cart_state) (r : ProductRecord) :
  (Analyzer.truthy budget = true
   /\ Analyzer.add_product budget c st r = st)
  \/ (Analyzer.add_product budget c st r
      = (fst (fst st) ++ [Spec.item_of c r],
         snd (fst st) + final_price r,
         snd st + (base_price r - final_price r))%Q
      /\ Analyzer.over_budget budget (snd (fst st)) (final_price r) = false).
Proof.
  destruct st as [[l t] sv]. unfold Analyzer.add_product.
  destruct (Analyzer.over_budget budget t (final_price r)) eqn:E.
  - left. split; [|reflexivity].
    unfold Analyzer.over_budget in E. apply andb_true_iff in E. tauto.
  - right. split; [reflexivity | exact E].
Qed.

(** Anything the loop body keeps, the whole double loop keeps. *)
Lemma fill_cart_keeps (Inv : Analyzer.cart_state -> Prop) :
  (forall c st r, Inv st -> Inv (Analyzer.add_product budget c st r)) ->
  forall desired st, Inv st -> Inv (Analyzer.fill_cart df budget desired st).
Proof.
  intros Hstep. unfold Analyzer.fill_cart.
  induction desired as [|[c q] rest IH]; intros st H; simpl; [exact H|].
  apply IH. generalize (Analyzer.best_products df c q).
  clear IH. intros products. revert st H.
  induction products as [|r l IHl]; intros st H; simpl; [exact H|].
  apply IHl, Hstep, H.
Qed.

Lemma cart_sum_snoc (l : list Analyzer.CartItem) (i : Analyzer.CartItem) :
  Spec.cart_sum (l ++ [i]) = (Spec.cart_sum l + Analyzer.c_price i)%Q.
Proof. unfold Spec.cart_sum. rewrite fold_left_app. reflexivity. Qed.

Lemma cart_saved_snoc (l : list Analyzer.CartItem) (i : Analyzer.CartItem) :
  Spec.cart_saved (l ++ [i])
  = (Spec.cart_saved l
     + (Analyzer.c_original_price i - Analyzer.c_price i))%Q.
Proof. unfold Spec.cart_saved. rewrite fold_left_app. reflexivity. Qed.

Lemma fill_cart_totals (desired : list (str * Z)) :
  let st := Analyzer.fill_cart df budget desired ([], 0, 0)%Q in
  snd (fst st) = Spec.cart_sum (fst (fst st))
  /\ snd st = Spec.cart_saved (fst (fst st)).
Proof.
  apply (fill_cart_keeps
           (fun st => snd (fst st) = Spec.cart_sum (fst (fst st))
                      /\ snd st = Spec.cart_saved (fst (fst st))));
    [|split; reflexivity].
  intros c st r [H1 H2].
  destruct (add_product_cases c st r) as [[_ ->] | [-> _]]; [auto|].
  simpl. rewrite cart_sum_snoc, cart_saved_snoc, <- H1, <- H2. auto.
Qed.

End CartFacts.

Section Unique.

Lemma unique_In (l : list str) (x : str) : In x (Frame.unique l) <-> In x l.
Proof.
  induction l as [|y l IH]; simpl; [tauto|].
  rewrite filter_In, IH, negb_true_iff. split.
  - intros [H | [H _]]; auto.
  - intros [H | H]; [left; exact H|].
    destruct (PyStr.eqb y x) eqn:E.
    + left. apply eqb_eq. exact E.
    + right. auto.
Qed.

Lemma unique_NoDup (l : list str) : NoDup (Frame.unique l).
Proof.
  induction l as [|y l IH]; simpl; constructor.
  - rewrite filter_In, negb_true_iff. intros [_ H].
    rewrite eqb_refl in H. discriminate.
  - apply NoDup_filter. exact IH.
Qed.

End Unique.

(** X11.  The figures [optimize_shopping_cart] returns agree with the cart
    it returns: total_cost is the rounded sum of the item prices,
    total_savings the rounded sum of original price minus price,
    items_count the number of items, and retailers lists every retailer
    of the cart exactly once. *)
Theorem cart_figures_agree (pp : Analyzer.store) (desired : list (str * Z))
        (budget : option Q) :
  match Analyzer.optimize_shopping_cart pp desired budget with
  | Ok c =>
    Analyzer.total_cost c = Num.round2 (Spec.cart_sum (Analyzer.cart c))
    /\ Analyzer.total_savings c
       = Num.round2 (Spec.cart_saved (Analyzer.cart c))
    /\ Analyzer.items_count c = List.length (Analyzer.cart c)
    /\ NoDup (Analyzer.retailers c)
    /\ forall x, In x (Analyzer.retailers c)
                 <-> In x (List.map Analyzer.c_retailer (Analyzer.cart c))
  | Raise e => Analyzer.loaded pp = Raise e
  end.
Proof.
  unfold Analyzer.optimize_shopping_cart.
  destruct (Analyzer.loaded pp) as [df|e]; simpl; [|reflexivity].
  pose proof (fill_cart_totals df budget desired) as H. cbv zeta in H.
  destruct (Analyzer.fill_cart df budget desired ([], 0, 0)%Q) as [[l t] sv].
  simpl in *. destruct H as [-> ->].
  repeat split; try apply unique_NoDup; apply unique_In.
Qed.

Section CartSelection.

Lemma subseq_refl {A} (l : list A) : Spec.subseq l l.
Proof. induction l; constructor; assumption. Qed.

Lemma subseq_nil_l {A} (l : list A) : Spec.subseq [] l.
Proof. induction l; constructor; assumption. Qed.

Lemma subseq_app {A} (a b c d : list A) :
  Spec.subseq a b -> Spec.subseq c d -> Spec.subseq (a ++ c) (b ++ d).
Proof.
  induction 1 as [|x l1 l2 H IH|x l1 l2 H IH]; intros Hcd; simpl.
  - exact Hcd.
  - apply Spec.subseq_skip, IH, Hcd.
  - apply Spec.subseq_take, IH, Hcd.
Qed.

Variable df : frame.
Variable budget : option Q.

Lemma add_products_taken (c : str) (products : frame) : forall st,
  exists taken,
    fst (fst (fold_left (Analyzer.add_product budget c) products st))
    = fst (fst st) ++ taken
    /\ Spec.subseq taken (List.map (Spec.item_of c) products)
    /\ (Analyzer.truthy budget = false ->
        taken = List.map (Spec.item_of c) products).
Proof.
  induction products as [|r l IH]; intros st; simpl.
  - exists []. rewrite app_nil_r. repeat split. constructor.
  - destruct (IH (Analyzer.add_product budget c st r))
      as [taken [Hf [Hs Hall]]].
    destruct (add_product_cases budget c st r) as [[Ht E] | [E _]];
      rewrite E in Hf |- *.
    + exists taken. split; [exact Hf|].
      split; [apply Spec.subseq_skip; exact Hs|].
      intros H. congruence.
    + simpl in Hf. rewrite <- app_assoc in Hf.
      exists (Spec.item_of c r :: taken). split; [exact Hf|].
      split; [apply Spec.subseq_take; exact Hs|].
      intros H. rewrite (Hall H). reflexivity.
Qed.

Lemma fill_cart_taken (desired : list (str * Z)) : forall st,
  exists taken,
    fst (fst (Analyzer.fill_cart df budget desired st)) = fst (fst st) ++ taken
    /\ Spec.subseq taken
         (flat_map (fun entry =>
                      List.map (Spec.item_of (fst entry))
                        (Analyzer.best_products df (fst entry) (snd entry)))
                   desired)
    /\ (Analyzer.truthy budget = false ->
        taken = flat_map (fun entry =>
                            List.map (Spec.item_of (fst entry))
                              (Analyzer.best_products df (fst entry) (snd entry)))
                         desired).
Proof.
  unfold Analyzer.fill_cart.
  induction desired as [|[c q] rest IH]; intros st; simpl.
  - exists []. rewrite app_nil_r. repeat split. constructor.
  - destruct (add_products_taken c (Analyzer.best_products df c q) st)
      as [t1 [H1 [S1 A1]]].
    destruct (IH (fold_left (Analyzer.add_product budget c)
                            (Analyzer.best_products df c q) st))
      as [t2 [H2 [S2 A2]]].
    exists (t1 ++ t2). split; [rewrite H2, H1, app_assoc; reflexivity|].
    split; [apply subseq_app; assumption|].
    intros H. rewrite (A1 H), (A2 H). reflexivity.
Qed.

End CartSelection.

(** X12.  The cart holds, in order, items made from the rows selected for
    the requested categories, some possibly left out; with no budget
    (None or 0) none is left out, so the cart then holds every selected
    row. *)
Theorem cart_is_drawn_from_selection (pp : Analyzer.store)
        (desired : list (str * Z)) (budget : option Q) :
  match Analyzer.optimize_shopping_cart pp desired budget with
  | Ok c =>
    let selection :=
      flat_map (fun entry =>
                  List.map (Spec.item_of (fst entry))
                    (Analyzer.best_products (Spec.rows pp) (fst entry)
                                            (snd entry)))
               desired in
    Spec.subseq (Analyzer.cart c) selection
    /\ (Analyzer.truthy budget = false -> Analyzer.cart c = selection)
  | Raise e => Analyzer.loaded pp = Raise e
  end.
Proof.
  unfold Analyzer.optimize_shopping_cart.
  destruct (Analyzer.loaded pp) as [df|e] eqn:El; simpl; [|reflexivity].
  apply loaded_rows in El. destruct El as [-> _].
  destruct (fill_cart_taken df budget desired ([], 0, 0)%Q)
    as [taken [Hf [Hs Hall]]].
  destruct (Analyzer.fill_cart df budget desired ([], 0, 0)%Q) as [[l t] sv].
  simpl in *. subst l. auto.
Qed.

Section CartBudget.

Variable df : frame.
Variable b : Q.
Hypothesis b_nonzero : ~ (b == 0)%Q.

Lemma fill_cart_bounded (desired : list (str * Z)) :
  let st := Analyzer.fill_cart df (Some b) desired ([], 0, 0)%Q in
  fst (fst st) = [] \/ (snd (fst st) <= b)%Q.
Proof.
  apply (fill_cart_keeps df (Some b)
           (fun st => fst (fst st) = [] \/ (snd (fst st) <= b)%Q));
    [|left; reflexivity].
  intros c st r H.
  destruct (add_product_cases (Some b) c st r) as [[_ ->] | [-> E]];
    [exact H|].
  right. simpl. unfold Analyzer.over_budget in E.
  rewrite (truthy_nonzero b_nonzero) in E. simpl in E.
  apply negb_false_iff, Qle_bool_iff in E. exact E.
Qed.

End CartBudget.

(** X13.  Under a budget other than zero the cart as a whole stays
    within the budget: the sum of the item prices is at most the budget,
    provided the budget is not negative or the cart is not empty. *)
Theorem cart_total_within_budget (pp : Analyzer.store)
        (desired : list (str * Z)) (b : Q) :
  ~ (b == 0)%Q ->
  match Analyzer.optimize_shopping_cart pp desired (Some b) with
  | Ok c =>
    Analyzer.cart c <> [] \/ (0 <= b)%Q ->
    (Spec.cart_sum (Analyzer.cart c) <= b)%Q
  | Raise e => Analyzer.loaded pp = Raise e
  end.
Proof.
  intros Hb. unfold Analyzer.optimize_shopping_cart.
  destruct (Analyzer.loaded pp) as [df|e]; simpl; [|reflexivity].
  pose proof (fill_cart_totals df (Some b) desired) as Ht.
  pose proof (fill_cart_bounded df b Hb desired) as Hle.
  cbv zeta in Ht, Hle.
  destruct (Analyzer.fill_cart df (Some b) desired ([], 0, 0)%Q) as [[l t] sv].
  simpl in *. destruct Ht as [-> _].
  intros [Hne | Hpos]; destruct Hle as [-> | Hle]; auto; try congruence.
Qed.

Lemma cart_total_within_budget_witness :
  match Analyzer.optimize_shopping_cart
          (Some [Sample.coffee; Sample.water; Sample.juice])
          [(PyStr.lit "Gėrimai", 2)] (Some 3%Q) with
  | Ok c => (Spec.cart_sum (Analyzer.cart c) <= 3)%Q
  | Raise _ => False
  end.
Proof.
  assert (Hb : ~ (3 == 0)%Q) by discriminate.
  pose proof (cart_total_within_budget
                (Some [Sample.coffee; Sample.water; Sample.juice])
                [(PyStr.lit "Gėrimai", 2)] 3%Q Hb) as H.
  destruct (Analyzer.optimize_shopping_cart _ _ _) as [c|e].
  - apply H. right. discriminate.
  - discriminate H.
Defined.

Section Selection.

Lemma sorted_weaken {A} (R R' : A -> A -> Prop) (l : list A) :
  (forall a b, R a b -> R' a b) -> StronglySorted R l -> StronglySorted R' l.
Proof.
  intros HR. induction 1 as [|x l Hs IH Hx]; constructor; [exact IH|].
  eapply Forall_impl; [|exact Hx]. intros y. apply HR.
Qed.

Lemma ascending_sorted {A} (key : A -> Q) (l : list A) :
  StronglySorted (fun a b => (key a <= key b)%Q) (Frame.sort_ascending key l).
Proof.
  unfold Frame.sort_ascending.
  apply sorted_weaken
    with (R := fun a b => Qle_bool (key a) (key b) = true).
  - intros a b. apply Qle_bool_iff.
  - apply sort_sorted.
    + intros a b. rewrite !Qle_bool_iff.
      destruct (Qlt_le_dec (key a) (key b)) as [H|H]; [left | right]; auto.
      apply Qlt_le_weak, H.
    + intros a b c. rewrite !Qle_bool_iff. intros H1 H2.
      eapply Qle_trans; eassumption.
Qed.

Lemma best_products_eq (df : frame) (c : str) (q : Z) :
  Analyzer.best_products df c q
  = firstn (Z.to_nat q)
      (Frame.sort_ascending Analyzer.sort_key
         (filter (fun r => PyStr.eqb (category r) c) df)).
Proof.
  unfold Analyzer.best_products, Frame.nsmallest.
  destruct (filter _ df); [|reflexivity].
  rewrite firstn_nil. reflexivity.
Qed.

Lemma promo_sorts_first (a b : ProductRecord) :
  is_promo a = true -> is_promo b = false ->
  (final_price a <= final_price b)%Q ->
  (Analyzer.sort_key a < Analyzer.sort_key b)%Q.
Proof.
  unfold Analyzer.sort_key. intros -> -> H. lra.
Qed.

End Selection.

(** X14.  For one requested category the rows chosen are the cheapest:
    min(qty, rows available) rows of that category, in non-decreasing
    order of the sort key (final price, less 0.01 for a promo row), no
    row left out having a smaller key than a chosen one; and a promo row
    that costs no more than a chosen non-promo row is chosen as well. *)
Theorem cheapest_rows_are_selected (df : frame) (c : str) (q : Z) :
  let rows_c := filter (fun r => PyStr.eqb (category r) c) df in
  let chosen := Analyzer.best_products df c q in
  exists rest,
    Permutation (chosen ++ rest) rows_c
    /\ List.length chosen = Nat.min (Z.to_nat q) (Spec.available df c)
    /\ StronglySorted
         (fun x y => (Analyzer.sort_key x <= Analyzer.sort_key y)%Q) chosen
    /\ (forall x y, In x chosen -> In y rest ->
                    (Analyzer.sort_key x <= Analyzer.sort_key y)%Q)
    /\ (forall x y, In x rows_c -> In y chosen ->
                    is_promo x = true -> is_promo y = false ->
                    (final_price x <= final_price y)%Q ->
                    In x chosen).
Proof.
  intros rows_c chosen. unfold chosen. rewrite best_products_eq.
  fold rows_c. set (sorted := Frame.sort_ascending Analyzer.sort_key rows_c).
  set (k := Z.to_nat q).
  assert (Hs : StronglySorted
                 (fun x y => (Analyzer.sort_key x <= Analyzer.sort_key y)%Q)
                 sorted) by apply ascending_sorted.
  assert (Hp : Permutation sorted rows_c) by apply sort_perm.
  assert (Hsplit : StronglySorted
                     (fun x y => (Analyzer.sort_key x <= Analyzer.sort_key y)%Q)
                     (firstn k sorted)
                   /\ forall x y, In x (firstn k sorted) ->
                                  In y (skipn k sorted) ->
                                  (Analyzer.sort_key x <= Analyzer.sort_key y)%Q).
  { apply sorted_app. rewrite firstn_skipn. exact Hs. }
  destruct Hsplit as [Hs1 Hs2].
  exists (skipn k sorted). rewrite firstn_skipn.
  split; [exact Hp|]. split.
  { rewrite length_firstn, (Permutation_length Hp). reflexivity. }
  split; [exact Hs1|]. split; [exact Hs2|].
  intros x y Hx Hy Hpx Hpy Hle.
  apply (Permutation_in _ (Permutation_sym Hp)) in Hx.
  rewrite <- (firstn_skipn k sorted) in Hx. apply in_app_or in Hx.
  destruct Hx as [Hx | Hx]; [exact Hx|].
  pose proof (Hs2 y x Hy Hx) as H1.
  pose proof (promo_sorts_first x y Hpx Hpy Hle) as H2.
  exfalso. apply (Qlt_not_le _ _ H2 H1).
Qed.

(** ** More on the shopping list *)

Section ListFacts.

Lemma sort_length {A} (le : A -> A -> bool) (l : list A) :
  List.length (Frame.sort le l) = List.length l.
Proof. apply Permutation_length, sort_perm. Qed.

Lemma value_counts_nil (l : list str) : Frame.value_counts l = [] -> l = [].
Proof.
  intros H. apply (f_equal (@List.length _)) in H.
  unfold Frame.value_counts in H. rewrite sort_length, length_map in H.
  destruct l; [reflexivity | discriminate].
Qed.

Lemma idxmax_raises (vc : list (str * nat)) :
  (exists e, Frame.idxmax vc = Raise e) <-> vc = [].
Proof.
  destruct vc as [|[x n] rest]; simpl.
  - split; [reflexivity | intros _; eexists; reflexivity].
  - split; [intros [e H]; discriminate | discriminate].
Qed.

(** The only branch of the strategy dispatch that can fail is
    'single_retailer', and it fails exactly on an empty set of promo
    rows. *)
Lemma arrange_raises (optimize_for : str) (promo_items : frame) :
  (exists e, Analyzer.arrange optimize_for promo_items = Raise e)
  <-> optimize_for = PyStr.lit "single_retailer" /\ promo_items = [].
Proof.
  split.
  - intros [e H]. unfold Analyzer.arrange in H.
    destruct (Analyzer.is_savings optimize_for); [discriminate|].
    destruct (Analyzer.is_variety optimize_for); [discriminate|].
    destruct (Analyzer.is_single_retailer optimize_for) eqn:Es;
      [|discriminate].
    split; [apply eqb_eq; exact Es|].
    destruct (Frame.idxmax _) as [best|e'] eqn:Ei; [discriminate|].
    assert (Hvc : Frame.value_counts (List.map retailer promo_items) = [])
      by (apply idxmax_raises; eexists; exact Ei).
    apply value_counts_nil in Hvc. destruct promo_items; [reflexivity|].
    discriminate.
  - intros [-> ->]. eexists. reflexivity.
Qed.

Lemma loaded_raises (pp : Analyzer.store) :
  (exists e, Analyzer.loaded pp = Raise e) <-> Spec.rows pp = [].
Proof.
  destruct pp as [[|r l]|]; simpl; split; try discriminate;
    try (intros [e H]; discriminate); intros _; eexists; reflexivity.
Qed.

End ListFacts.

(** X15.  [generate_shopping_list] fails in exactly two situations: no
    data is loaded (missing or empty collection), or the strategy is
    'single_retailer' and the collection holds no promo row. *)
Theorem shopping_list_failures (pp : Analyzer.store) (budget : Q)
        (optimize_for : str) :
  (exists e, Analyzer.generate_shopping_list pp budget optimize_for = Raise e)
  <-> Spec.rows pp = []
      \/ (optimize_for = PyStr.lit "single_retailer"
          /\ filter is_promo (Spec.rows pp) = []).
Proof.
  unfold Analyzer.generate_shopping_list.
  destruct (Analyzer.loaded pp) as [df|e] eqn:El; simpl.
  - apply loaded_rows in El. destruct El as [-> Hne].
    pose proof (arrange_raises optimize_for (filter is_promo df)) as Ha.
    destruct (Analyzer.arrange optimize_for (filter is_promo df)) as [items|e];
      simpl.
    + split; [intros [e H]; discriminate|].
      intros [H | H]; [contradiction|].
      apply Ha in H. destruct H as [e H]. discriminate.
    + split; [|intros _; eexists; reflexivity].
      intros _. right. apply Ha. eexists. reflexivity.
  - split; [|intros _; eexists; reflexivity].
    intros _. left. apply loaded_raises. eexists. exact El.
Qed.

Section WalkFacts.

Variable budget : Q.

Lemma walk_subseq (items : frame) : forall st,
  exists taken,
    fst (Analyzer.budget_walk budget items st) = fst st ++ taken
    /\ Spec.subseq taken items.
Proof.
  induction items as [|item rest IH]; intros st.
  - exists []. simpl. rewrite app_nil_r. split; [reflexivity | constructor].
  - rewrite walk_cons.
    assert (Hacc : exists one,
               fst (Spec.accept budget st item) = fst st ++ one
               /\ Spec.subseq one [item]).
    { unfold Spec.accept. destruct (Qle_bool _ _).
      - exists [item]. split; [reflexivity | apply subseq_refl].
      - exists []. rewrite app_nil_r. split; [reflexivity|].
        apply subseq_nil_l. }
    destruct Hacc as [one [Ho So]].
    destruct (Qle_bool _ (snd (Spec.accept budget st item))).
    + exists one. split; [exact Ho|].
      change (item :: rest) with ([item] ++ rest).
      rewrite <- (app_nil_r one). apply subseq_app; [exact So|].
      apply subseq_nil_l.
    + destruct (IH (Spec.accept budget st item)) as [taken [Ht St]].
      exists (one ++ taken). rewrite Ht, Ho, app_assoc.
      split; [reflexivity|].
      change (item :: rest) with ([item] ++ rest).
      apply subseq_app; assumption.
Qed.

Lemma total_of_nonneg (l : frame) :
  Forall (fun r => (0 <= final_price r)%Q) l -> (0 <= Spec.total_of l)%Q.
Proof.
  induction 1 as [|r l Hr Hl IH]; simpl; [apply Qle_refl | lra].
Qed.

(** A budget that leaves the early-stop threshold out of reach buys
    every candidate. *)
Lemma walk_takes_all (items : frame) : forall acc t,
  (0 <= t)%Q ->
  Forall (fun r => (0 <= final_price r)%Q) items ->
  (t + Spec.total_of items < budget * 0.95)%Q ->
  fst (Analyzer.budget_walk budget items (acc, t)) = acc ++ items.
Proof.
  induction items as [|item rest IH]; intros acc t Ht Hf Hlt.
  - simpl. rewrite app_nil_r. reflexivity.
  - inversion Hf as [|? ? Hp Hrest]; subst.
    pose proof (total_of_nonneg rest Hrest) as Hr.
    simpl in Hlt. rewrite walk_cons. unfold Spec.accept. simpl.
    destruct (Qle_bool (t + final_price item) budget) eqn:E1.
    + simpl. destruct (Qle_bool _ (t + final_price item)) eqn:E2.
      * apply Qle_bool_iff in E2. lra.
      * rewrite IH; [rewrite <- app_assoc; reflexivity | lra | exact Hrest | lra].
    + assert (Hfit : (t + final_price item <= budget)%Q) by lra.
      apply Qle_bool_iff in Hfit. congruence.
Qed.

End WalkFacts.

(** X16.  The shopping list as a whole stays within the budget: the sum
    of the final prices of the returned rows is at most the budget,
    provided the budget is not negative or the list is not empty. *)
Theorem shopping_list_total_within_budget (pp : Analyzer.store) (budget : Q)
        (optimize_for : str) :
  match Analyzer.generate_shopping_list pp budget optimize_for with
  | Ok l => l <> [] \/ (0 <= budget)%Q -> (Spec.total_of l <= budget)%Q
  | Raise _ => True
  end.
Proof.
  unfold Analyzer.generate_shopping_list.
  destruct (Analyzer.loaded pp) as [df|e]; simpl; [|exact I].
  destruct (Analyzer.arrange optimize_for (filter is_promo df)) as [items|e];
    simpl; [|exact I].
  destruct (walk_prefix budget items Spec.start)
    as [visited [unvisited [_ [Hw _]]]].
  change ([], 0%Q) with Spec.start. rewrite Hw.
  pose proof (fill_consistent visited (start_consistent budget)) as [_ Hin].
  destruct (fst (Spec.fill budget visited Spec.start)) as [|r l] eqn:El.
  - intros [H | H]; [congruence | exact H].
  - intros _.
    destruct (@exists_last _ (r :: l)) as [l' [x Hx]]; [discriminate|].
    rewrite Hx in *. specialize (Hin l' x [] eq_refl).
    rewrite total_of_snoc. exact Hin.
Qed.

(** X17.  When the final prices of the arranged promo rows are not
    negative and add up to less than 0.95 times the budget, the shopping
    list holds every one of them, in the arranged order. *)
Theorem generous_budget_buys_everything (pp : Analyzer.store) (budget : Q)
        (optimize_for : str) (items : frame) :
  Spec.rows pp <> [] ->
  Analyzer.arrange optimize_for (filter is_promo (Spec.rows pp)) = Ok items ->
  Forall (fun r => (0 <= final_price r)%Q) items ->
  (Spec.total_of items < budget * 0.95)%Q ->
  Analyzer.generate_shopping_list pp budget optimize_for = Ok items.
Proof.
  intros Hne Ha Hf Hlt. unfold Analyzer.generate_shopping_list.
  destruct pp as [df|]; [|contradiction]. simpl in Hne, Ha.
  rewrite (loaded_nonempty Hne). cbn [bind]. rewrite Ha. cbn [bind]. f_equal.
  apply (walk_takes_all budget items [] 0%Q); [apply Qle_refl | exact Hf | lra].
Qed.

Lemma generous_budget_buys_everything_witness :
  Analyzer.generate_shopping_list
    (Some [Sample.juice; Sample.bun; Sample.cheese; Sample.ham]) 100
    (PyStr.lit "savings")
  = Ok [Sample.ham; Sample.cheese; Sample.bun].
Proof.
  apply generous_budget_buys_everything.
  - discriminate.
  - reflexivity.
  - repeat constructor; discriminate.
  - vm_compute. reflexivity.
Defined.

Section Arranged.

Lemma In_firstn {A} (n : nat) (l : list A) (x : A) :
  In x (firstn n l) -> In x l.
Proof.
  intros H. rewrite <- (firstn_skipn n l). apply in_or_app. left. exact H.
Qed.

(** Whatever the strategy, the arranged rows are promo rows of the
    collection. *)
Lemma arrange_incl (optimize_for : str) (promo_items items : frame) :
  Analyzer.arrange optimize_for promo_items = Ok items ->
  forall r, In r items -> In r promo_items.
Proof.
  unfold Analyzer.arrange.
  destruct (Analyzer.is_savings optimize_for).
  - intros [= <-] r Hr.
    eapply Permutation_in; [apply sort_perm | exact Hr].
  - destruct (Analyzer.is_variety optimize_for).
    + intros [= <-] r Hr. apply in_flat_map in Hr.
      destruct Hr as [c [_ Hr]]. unfold Frame.nsmallest in Hr.
      apply In_firstn in Hr.
      assert (Hin : In r (filter (fun x => PyStr.eqb (category x) c)
                                 promo_items))
        by (eapply Permutation_in; [apply sort_perm | exact Hr]).
      apply filter_In in Hin. tauto.
    + destruct (Analyzer.is_single_retailer optimize_for).
      * destruct (Frame.idxmax _) as [best|e]; simpl; [|discriminate].
        intros [= <-] r Hr. apply filter_In in Hr. tauto.
      * intros [= <-] r Hr. exact Hr.
Qed.

Lemma subseq_sorted {A} (R : A -> A -> Prop) (l1 l2 : list A) :
  Spec.subseq l1 l2 -> StronglySorted R l2 -> StronglySorted R l1.
Proof.
  induction 1 as [|x l1 l2 H IH|x l1 l2 H IH]; intros Hs.
  - constructor.
  - inversion Hs; subst. auto.
  - inversion Hs as [|? ? Hs' Hx]; subst. constructor; [auto|].
    rewrite Forall_forall in Hx |- *. intros y Hy.
    apply Hx. apply (subseq_In _ _ _ H Hy).
Qed.

End Arranged.

(** X18.  The rows of a shopping list are promo rows of the collection,
    listed in the order the strategy arranged them (a subsequence of the
    arranged rows); with the strategy 'savings' they come in
    non-increasing discount. *)
Theorem shopping_list_rows (pp : Analyzer.store) (budget : Q)
        (optimize_for : str) :
  match Analyzer.generate_shopping_list pp budget optimize_for with
  | Ok l =>
    (exists items,
       Analyzer.arrange optimize_for (filter is_promo (Spec.rows pp)) = Ok items
       /\ Spec.subseq l items)
    /\ Forall (fun r => is_promo r = true /\ In r (Spec.rows pp)) l
    /\ (optimize_for = PyStr.lit "savings" ->
        StronglySorted (fun x y => discount_pct y <= discount_pct x) l)
  | Raise _ => True
  end.
Proof.
  unfold Analyzer.generate_shopping_list.
  destruct (Analyzer.loaded pp) as [df|e] eqn:El; simpl; [|exact I].
  apply loaded_rows in El. destruct El as [-> _].
  destruct (Analyzer.arrange optimize_for (filter is_promo df)) as [items|e]
    eqn:Ea; simpl; [|exact I].
  destruct (walk_subseq budget items ([], 0%Q)) as [taken [Ht Hs]].
  simpl in Ht. rewrite Ht.
  split; [exists items; auto|]. split.
  - apply Forall_forall. intros r Hr.
    apply (subseq_In _ _ _ Hs) in Hr.
    apply (arrange_incl _ _ _ Ea) in Hr. apply filter_In in Hr. tauto.
  - intros ->. apply (subseq_sorted _ _ _ Hs).
    unfold Analyzer.arrange in Ea. simpl in Ea. injection Ea as <-.
    apply sorted_weaken
      with (R := fun x y => (inject_Z (discount_pct y)
                             <= inject_Z (discount_pct x))%Q).
    + intros x y H. rewrite Zle_Qle. exact H.
    + apply (descending_sorted (fun r => inject_Z (discount_pct r))).
Qed.

Section Variety.

Lemma subseq_filter {A} (f : A -> bool) (l1 l2 : list A) :
  Spec.subseq l1 l2 -> Spec.subseq (filter f l1) (filter f l2).
Proof.
  induction 1 as [|x l1 l2 H IH|x l1 l2 H IH]; simpl.
  - constructor.
  - destruct (f x); [apply Spec.subseq_skip|]; exact IH.
  - destruct (f x); [apply Spec.subseq_take|]; exact IH.
Qed.

Lemma group_keys_NoDup (l : list str) : NoDup (Frame.group_keys l).
Proof.
  unfold Frame.group_keys.
  eapply Permutation_NoDup; [apply Permutation_sym, sort_perm|].
  apply unique_NoDup.
Qed.

Variable promo_items : frame.

Lemma chunk_category (c : str) (r : ProductRecord) :
  In r (Spec.variety_chunk promo_items c) -> category r = c.
Proof.
  intros H. unfold Spec.variety_chunk, Frame.nsmallest in H. apply In_firstn in H.
  assert (Hin : In r (filter (fun x => PyStr.eqb (category x) c) promo_items))
    by (eapply Permutation_in; [apply sort_perm | exact H]).
  apply filter_In in Hin. apply eqb_eq. tauto.
Qed.

Lemma chunk_small (c : str) : (List.length (Spec.variety_chunk promo_items c) <= 2)%nat.
Proof.
  unfold Spec.variety_chunk, Frame.nsmallest. rewrite length_firstn.
  change (Z.to_nat 2) with 2%nat. lia.
Qed.

Lemma other_chunks_empty (c : str) (keys : list str) :
  ~ In c keys ->
  filter (fun r => PyStr.eqb (category r) c) (flat_map (Spec.variety_chunk promo_items) keys) = [].
Proof.
  intros Hn. induction keys as [|k keys IH]; simpl; [reflexivity|].
  rewrite filter_app, IH by (intros H; apply Hn; right; exact H).
  rewrite app_nil_r.
  destruct (filter _ (Spec.variety_chunk promo_items k)) as [|r l] eqn:E; [reflexivity|].
  assert (Hr : In r (filter (fun r => PyStr.eqb (category r) c) (Spec.variety_chunk promo_items k)))
    by (rewrite E; left; reflexivity).
  apply filter_In in Hr. destruct Hr as [Hin Hc].
  apply eqb_eq in Hc. apply chunk_category in Hin.
  exfalso. apply Hn. left. congruence.
Qed.

Lemma filter_length_le {A} (f : A -> bool) (l : list A) :
  (List.length (filter f l) <= List.length l)%nat.
Proof.
  induction l as [|x l IH]; simpl; [lia|]. destruct (f x); simpl; lia.
Qed.

Lemma variety_two_per_category (c : str) (keys : list str) :
  NoDup keys ->
  (List.length (filter (fun r => PyStr.eqb (category r) c)
                       (flat_map (Spec.variety_chunk promo_items) keys)) <= 2)%nat.
Proof.
  induction 1 as [|k keys Hk Hnd IH]; simpl; [lia|].
  rewrite filter_app, length_app.
  destruct (PyStr.eqb k c) eqn:E.
  - apply eqb_eq in E. subst k.
    rewrite (other_chunks_empty c keys Hk). simpl.
    pose proof (filter_length_le (fun r => PyStr.eqb (category r) c) (Spec.variety_chunk promo_items c)).
    pose proof (chunk_small c). lia.
  - assert (Hnone : filter (fun r => PyStr.eqb (category r) c) (Spec.variety_chunk promo_items k) = []).
    { destruct (filter _ (Spec.variety_chunk promo_items k)) as [|r l] eqn:Ef; [reflexivity|].
      assert (Hr : In r (filter (fun r => PyStr.eqb (category r) c) (Spec.variety_chunk promo_items k)))
        by (rewrite Ef; left; reflexivity).
      apply filter_In in Hr. destruct Hr as [Hin Hc].
      apply eqb_eq in Hc. apply chunk_category in Hin.
      rewrite <- Hin, Hc, eqb_refl in E. discriminate. }
    rewrite Hnone. simpl. exact IH.
Qed.

End Variety.

(** X19.  With the strategy 'variety' the shopping list holds at most
    two rows of any category. *)
Theorem variety_takes_two_per_category (pp : Analyzer.store) (budget : Q)
        (c : str) :
  match Analyzer.generate_shopping_list pp budget (PyStr.lit "variety") with
  | Ok l =>
    (List.length (filter (fun r => PyStr.eqb (category r) c) l) <= 2)%nat
  | Raise e => Analyzer.loaded pp = Raise e
  end.
Proof.
  unfold Analyzer.generate_shopping_list.
  destruct (Analyzer.loaded pp) as [df|e]; cbn [bind]; [|reflexivity].
  change (Analyzer.arrange (PyStr.lit "variety") (filter is_promo df))
    with (Ok (flat_map
                (fun k => Frame.nsmallest 2 final_price
                            (filter (fun r => PyStr.eqb (category r) k)
                                    (filter is_promo df)))
                (Frame.group_keys (List.map category (filter is_promo df))))).
  cbn [bind].
  match goal with
  | |- context [Analyzer.budget_walk budget ?items _] =>
    destruct (walk_subseq budget items ([], 0%Q)) as [taken [Ht Hs]];
    pose proof (variety_two_per_category (filter is_promo df) c _
                  (group_keys_NoDup (List.map category (filter is_promo df))))
      as Htwo
  end.
  unfold Spec.variety_chunk in Htwo.
  simpl fst in Ht. simpl app in Ht. rewrite Ht.
  apply (subseq_filter (fun r => PyStr.eqb (category r) c)) in Hs.
  apply subseq_length in Hs. lia.
Qed.

Section SingleRetailer.

Lemma idxmax_fold (rest : list (str * nat)) : forall init,
  let best := fold_left (fun best y => if (snd best <? snd y)%nat then y else best)
                        rest init in
  In best (init :: rest)
  /\ forall y, In y (init :: rest) -> (snd y <= snd best)%nat.
Proof.
  induction rest as [|z rest IH]; intros init; simpl.
  - split; [left; reflexivity|]. intros y [<- | []]. lia.
  - destruct (snd init <? snd z)%nat eqn:E.
    + apply Nat.ltb_lt in E. destruct (IH z) as [Hin Hmax]. split.
      * right. exact Hin.
      * intros y [<- | Hy]; [|apply Hmax; exact Hy].
        specialize (Hmax z (or_introl eq_refl)). lia.
    + apply Nat.ltb_ge in E. destruct (IH init) as [Hin Hmax]. split.
      * destruct Hin as [H | H]; [left; exact H | right; right; exact H].
      * intros y [<- | [<- | Hy]].
        -- apply Hmax. left. reflexivity.
        -- specialize (Hmax init (or_introl eq_refl)). lia.
        -- apply Hmax. right. exact Hy.
Qed.

Lemma idxmax_max (vc : list (str * nat)) (best : str) :
  Frame.idxmax vc = Ok best ->
  exists n, In (best, n) vc /\ forall y, In y vc -> (snd y <= n)%nat.
Proof.
  destruct vc as [|[x n] rest]; simpl; [discriminate|].
  intros [= <-]. destruct (idxmax_fold rest (x, n)) as [Hin Hmax].
  cbv zeta in Hin, Hmax.
  destruct (fold_left _ rest (x, n)) as [b m]. exists m. auto.
Qed.

Lemma value_counts_In (l : list str) (x : str) (n : nat) :
  In (x, n) (Frame.value_counts l) <-> In x l /\ n = Frame.count x l.
Proof.
  unfold Frame.value_counts. split.
  - intros H.
    assert (Hm : In (x, n) (List.map (fun x => (x, Frame.count x l))
                                     (Frame.unique l)))
      by (eapply Permutation_in; [apply sort_perm | exact H]).
    apply in_map_iff in Hm. destruct Hm as [y [[= -> <-] Hy]].
    split; [apply unique_In; exact Hy | reflexivity].
  - intros [Hx ->].
    eapply Permutation_in; [apply Permutation_sym, sort_perm|].
    apply in_map_iff. exists x. split; [reflexivity | apply unique_In; exact Hx].
Qed.

Lemma count_pos (x : str) (l : list str) :
  Frame.count x l <> 0%nat -> In x l.
Proof.
  unfold Frame.count. destruct (filter (PyStr.eqb x) l) as [|y f] eqn:E;
    [simpl; congruence|]. intros _.
  assert (Hy : In y (filter (PyStr.eqb x) l)) by (rewrite E; left; reflexivity).
  apply filter_In in Hy. destruct Hy as [Hin He].
  apply eqb_eq in He. subst y. exact Hin.
Qed.

End SingleRetailer.

(** X20.  With the strategy 'single_retailer' every row of the shopping
    list comes from one retailer, and no retailer has more promo rows in
    the collection than that one. *)
Theorem single_retailer_is_the_busiest (pp : Analyzer.store) (budget : Q) :
  match Analyzer.generate_shopping_list pp budget
          (PyStr.lit "single_retailer") with
  | Ok l =>
    let promo_retailers := List.map retailer (filter is_promo (Spec.rows pp)) in
    exists best,
      In best promo_retailers
      /\ Forall (fun r => retailer r = best) l
      /\ forall x, (Frame.count x promo_retailers
                    <= Frame.count best promo_retailers)%nat
  | Raise _ => True
  end.
Proof.
  unfold Analyzer.generate_shopping_list.
  destruct (Analyzer.loaded pp) as [df|e] eqn:El; cbn [bind]; [|exact I].
  apply loaded_rows in El. destruct El as [-> _].
  change (Analyzer.arrange (PyStr.lit "single_retailer") (filter is_promo df))
    with (best_retailer <-
            Frame.idxmax (Frame.value_counts
                            (List.map retailer (filter is_promo df))) ;;
          Ok (filter (fun r => PyStr.eqb (retailer r) best_retailer)
                     (filter is_promo df))).
  destruct (Frame.idxmax _) as [best|e] eqn:Ei; cbn [bind]; [|exact I].
  apply idxmax_max in Ei. destruct Ei as [n [Hin Hmax]].
  apply value_counts_In in Hin. destruct Hin as [Hbest ->].
  cbv zeta. exists best. split; [exact Hbest|]. split.
  - match goal with
    | |- context [Analyzer.budget_walk budget ?items _] =>
      destruct (walk_subseq budget items ([], 0%Q)) as [taken [Ht Hs]]
    end.
    simpl fst in Ht. simpl app in Ht. rewrite Ht.
    apply Forall_forall. intros r Hr.
    apply (subseq_In _ _ _ Hs) in Hr. apply filter_In in Hr.
    apply eqb_eq. tauto.
  - intros x.
    destruct (Frame.count x (List.map retailer (filter is_promo df)))
      as [|k] eqn:Ec; [lia|].
    rewrite <- Ec.
    apply (Hmax (x, Frame.count x (List.map retailer (filter is_promo df)))).
    apply value_counts_In. split; [|reflexivity].
    apply count_pos. lia.
Qed.

(** ** The per-retailer summary *)

Section Summary.








End Summary.


(** ** More on contexts *)

Section ContextBounds.

Variable text : str.

Lemma context_bounds (p : Re.pattern) (m : Re.match_obj) :
  In Re.digits1 p -> In m (Re.finditer p text) ->
  let ctx := Scraper.context_of text m in
  (List.length ctx <= Re.m_end m - Re.m_start m + 100)%nat
  /\ ctx <> []
  /\ Spec.starts_clean ctx /\ Spec.starts_clean (rev ctx).
Proof.
  intros Hd Hm ctx.
  destruct (strip_spec (Scraper.window text m)) as [l [r [Hw [_ [_ Hclean]]]]].
  fold (Scraper.context_of text m) in Hw, Hclean. fold ctx in Hw, Hclean.
  split; [|split; [|exact Hclean]].
  - assert (Hlen : (List.length ctx <= List.length (Scraper.window text m))%nat).
    { rewrite Hw, !length_app. lia. }
    pose proof (finditer_match _ _ _ Hm) as [before [consumed [after [_ [Hs [He _]]]]]].
    unfold Scraper.window, PyStr.slice in Hlen.
    rewrite length_firstn in Hlen. lia.
  - destruct (match_holds_digit _ _ _ Hd Hm) as [i [c [Hi [Hrange Hdig]]]].
    assert (Hin : In c ctx).
    { apply strip_keeps; [|apply digit_not_space; exact Hdig].
      apply (window_holds_match text m i c Hrange Hi). }
    intros E. rewrite E in Hin. contradiction.
Qed.

End ContextBounds.

(** X22.  Every context paired with a price or a discount is non-empty,
    has no leading or trailing whitespace, and is at most 100 characters
    longer than the match it surrounds. *)
Theorem contexts_are_bounded (text : str) :
  Forall (fun pair =>
            exists p m,
              In p Scraper.price_patterns /\ In m (Re.finditer p text)
              /\ fst pair = Scraper.context_of text m
              /\ (List.length (fst pair)
                  <= Re.m_end m - Re.m_start m + 100)%nat
              /\ fst pair <> []
              /\ Spec.starts_clean (fst pair)
              /\ Spec.starts_clean (rev (fst pair)))
         (Scraper.extract_prices_from_text text)
  /\ Forall (fun pair =>
               exists p m,
                 In p Scraper.discount_patterns /\ In m (Re.finditer p text)
                 /\ fst pair = Scraper.context_of text m
                 /\ (List.length (fst pair)
                     <= Re.m_end m - Re.m_start m + 100)%nat
                 /\ fst pair <> []
                 /\ Spec.starts_clean (fst pair)
                 /\ Spec.starts_clean (rev (fst pair)))
            (Scraper.extract_discounts_from_text text).
Proof.
  split; apply Forall_forall; intros pair H.
  - apply price_pair_origin in H. destruct H as [p [m [Hp [Hm [_ Hc]]]]].
    assert (Hd : In Re.digits1 p).
    { pose proof price_patterns_need_digit as Hn.
      rewrite Forall_forall in Hn. apply Hn. exact Hp. }
    exists p, m. rewrite Hc.
    pose proof (context_bounds text p m Hd Hm) as Hb. cbv zeta in Hb. tauto.
  - apply discount_pair_origin in H. destruct H as [p [m [Hp [Hm [_ Hc]]]]].
    assert (Hd : In Re.digits1 p).
    { pose proof discount_patterns_need_digit as Hn.
      rewrite Forall_forall in Hn. apply Hn. exact Hp. }
    exists p, m. rewrite Hc.
    pose proof (context_bounds text p m Hd Hm) as Hb. cbv zeta in Hb. tauto.
Qed.

(** ** Short flyers *)

Section ShortFlyer.

Lemma split_aux_occurs (s : str) : forall cur w,
  In w (PyStr.split_aux s cur) ->
  exists pre post, rev cur ++ s = pre ++ w ++ post.
Proof.
  induction s as [|c s IH]; intros cur w H; simpl in H.
  - destruct cur as [|x cur]; [contradiction|].
    destruct H as [<- | []]. exists [], []. rewrite app_nil_r. reflexivity.
  - destruct (PyStr.isspace c).
    + destruct cur as [|x cur].
      * destruct (IH [] w H) as [pre [post E]]. simpl in E.
        exists (c :: pre), post. simpl. rewrite E. reflexivity.
      * destruct H as [<- | H].
        -- exists [], (c :: s). reflexivity.
        -- destruct (IH [] w H) as [pre [post E]]. simpl in E.
           exists (rev (x :: cur) ++ c :: pre), post.
           rewrite E, <- app_assoc. reflexivity.
    + destruct (IH (c :: cur) w H) as [pre [post E]].
      exists pre, post. rewrite <- E. simpl. rewrite <- app_assoc. reflexivity.
Qed.

(** A token of [s.split()] is a substring of [s]. *)
Lemma split_occurs (s w : str) :
  In w (PyStr.split s) -> Spec.occurs_in w s.
Proof.
  intros H. apply split_aux_occurs in H. exact H.
Qed.

Lemma lower_keeps_digit (s : str) (c : char) :
  In c s -> Re.isdigit c = true -> In c (PyStr.lower s).
Proof.
  intros Hin Hd. unfold PyStr.lower. apply in_flat_map. exists c.
  split; [exact Hin|].
  unfold Re.isdigit in Hd. rewrite andb_true_iff, !N.leb_le in Hd.
  destruct Hd as [H1 H2].
  assert (H : (c = 48 \/ c = 49 \/ c = 50 \/ c = 51 \/ c = 52 \/ c = 53
               \/ c = 54 \/ c = 55 \/ c = 56 \/ c = 57)%N)
    by (unfold char, PyStr.char in *; lia).
  repeat (destruct H as [-> | H]; [left; reflexivity|]).
  subst c. left. reflexivity.
Qed.

(** A discount pair qualifies for a price context equal to its own. *)
Lemma own_context_qualifies (ctx : str) (d : Z) (c : char) :
  In c ctx -> Re.isdigit c = true -> Spec.qualifies ctx (ctx, d).
Proof.
  intros Hin Hd. unfold Spec.qualifies. cbn [fst].
  assert (Hne : PyStr.split (PyStr.lower ctx) <> []).
  { apply split_aux_nonempty. right. exists c.
    split; [apply lower_keeps_digit; assumption | apply digit_not_space; exact Hd]. }
  destruct (PyStr.split (PyStr.lower ctx)) as [|w ws] eqn:E; [congruence|].
  exists w. split; [left; reflexivity|].
  apply split_occurs. rewrite E. left. reflexivity.
Qed.

Variable text : str.
Hypothesis short : (List.length text <= 50)%nat.

(** In a short text the window of every match is the whole text. *)
Lemma short_window (p : Re.pattern) (m : Re.match_obj) :
  In m (Re.finditer p text) -> Scraper.window text m = text.
Proof.
  intros Hm.
  pose proof (finditer_match _ _ _ Hm) as [before [consumed [after [Ht [Hs [He _]]]]]].
  assert (Hlen : (Re.m_end m <= List.length text)%nat).
  { rewrite Ht, He, !length_app. lia. }
  unfold Scraper.window, PyStr.slice. cbv zeta.
  replace (Z.to_nat (Z.max 0 (Z.of_nat (Re.m_start m) - 50))) with 0%nat by lia.
  replace (Z.to_nat (Z.min (Z.of_nat (List.length text))
                           (Z.of_nat (Re.m_end m) + 50)))
    with (List.length text) by lia.
  rewrite Nat.sub_0_r. simpl skipn. apply firstn_all.
Qed.

Lemma short_context (p : Re.pattern) (m : Re.match_obj) :
  In m (Re.finditer p text) -> Scraper.context_of text m = PyStr.strip text.
Proof.
  intros Hm. unfold Scraper.context_of. rewrite (short_window p m Hm).
  reflexivity.
Qed.

Lemma short_context_digit (p : Re.pattern) (m : Re.match_obj) :
  In Re.digits1 p -> In m (Re.finditer p text) ->
  exists c, In c (PyStr.strip text) /\ Re.isdigit c = true.
Proof.
  intros Hd Hm.
  destruct (match_holds_digit _ _ _ Hd Hm) as [i [c [Hi [_ Hdig]]]].
  exists c. split; [|exact Hdig].
  apply strip_keeps; [|apply digit_not_space; exact Hdig].
  eapply nth_error_In. exact Hi.
Qed.

Lemma short_association (cp : str * Q) :
  In cp (Scraper.extract_prices_from_text text) ->
  fst cp = PyStr.strip text
  /\ Scraper.associate_discount (fst cp)
       (Scraper.extract_discounts_from_text text)
     = match Scraper.extract_discounts_from_text text with
       | [] => 0
       | (_, d) :: _ => d
       end.
Proof.
  intros H. apply price_pair_origin in H.
  destruct H as [p [m [_ [Hm [_ Hc]]]]].
  rewrite (short_context p m Hm) in Hc. split; [exact Hc|]. rewrite Hc.
  destruct (Scraper.extract_discounts_from_text text) as [|[dc d] rest] eqn:E;
    [reflexivity|].
  assert (Hin : In (dc, d) (Scraper.extract_discounts_from_text text))
    by (rewrite E; left; reflexivity).
  apply discount_pair_origin in Hin.
  destruct Hin as [p' [m' [Hp' [Hm' [_ Hc']]]]]. cbn [fst] in Hc'.
  rewrite (short_context p' m' Hm') in Hc'. subst dc.
  assert (Hd : In Re.digits1 p').
  { pose proof discount_patterns_need_digit as Hn.
    rewrite Forall_forall in Hn. apply Hn. exact Hp'. }
  destruct (short_context_digit p' m' Hd Hm') as [c [Hcin Hdig]].
  pose proof (own_context_qualifies (PyStr.strip text) d c Hcin Hdig) as Hq.
  apply qualifies_dec in Hq. cbn [fst] in Hq.
  cbn [Scraper.associate_discount]. rewrite Hq. reflexivity.
Qed.

End ShortFlyer.

(** X23.  In a flyer text of at most 50 characters every match has the
    whole stripped text as its context, so every extracted price is
    associated with the first extracted discount (0 when no discount was
    extracted), and all records of the flyer carry that one discount. *)
Theorem short_flyer_shares_one_discount (text retailer_ source : str)
        (clock : nat -> Z) :
  (List.length text <= 50)%nat ->
  let d0 := match Scraper.extract_discounts_from_text text with
            | [] => 0
            | (_, d) :: _ => d
            end in
  Forall (fun cp =>
            fst cp = PyStr.strip text
            /\ Scraper.associate_discount (fst cp)
                 (Scraper.extract_discounts_from_text text) = d0)
         (Scraper.extract_prices_from_text text)
  /\ match Scraper.parse_flyer text retailer_ source clock with
     | Ok df => Forall (fun r => discount_pct r = d0) df
     | Raise _ => True
     end.
Proof.
  intros Hshort d0. split.
  - apply Forall_forall. intros cp Hcp.
    apply (short_association text Hshort cp Hcp).
  - unfold Scraper.parse_flyer. destruct (PyStr.strip text); [constructor|].
    destruct (Scraper.build_products _ _ _ _ _ _ _) as [products|e] eqn:E;
      simpl; [|exact I].
    apply Forall_forall. intros r Hr.
    apply drop_duplicates_subset in Hr.
    destruct (@build_products_In _ _ _ _ _ _ _ _ _ E Hr)
      as [[ctx price] [j [Hcp Hb]]].
    pose proof (build_product_fields _ _ _ _ _ _ _ Hb) as [Hd _].
    rewrite Hd.
    apply (proj2 (short_association text Hshort (ctx, price) Hcp)).
Qed.

Lemma short_flyer_shares_one_discount_witness :
  Forall (fun r => discount_pct r = 20)
    match Scraper.parse_flyer
            (PyStr.lit "Pienas 1,99 € Duona 0,89 € -20%")
            (PyStr.lit "Rimi") (PyStr.lit "flyer.pdf") (fun _ => 0) with
    | Ok df => df
    | Raise _ => []
    end.
Proof.
  pose proof (short_flyer_shares_one_discount
                (PyStr.lit "Pienas 1,99 € Duona 0,89 € -20%")
                (PyStr.lit "Rimi") (PyStr.lit "flyer.pdf") (fun _ => 0)) as H.
  assert (Hs : (List.length (PyStr.lit "Pienas 1,99 € Duona 0,89 € -20%")
                <= 50)%nat) by (vm_compute; lia).
  specialize (H Hs). cbv zeta in H. destruct H as [_ H].
  destruct (Scraper.parse_flyer _ _ _ _) as [df|e]; [|constructor].
  exact H.
Defined.
